(** * go-mirgrate-directus: the schema migration client and its orchestrator

    A shallow embedding of package [gomirgratedirectus] (the Directus
    instance client [GetSnapshot] / [GetDiff] / [ApplyDiff] and the
    three-step [Migrate]) together with the properties its specification
    states about it.

    The Go standard library the package calls is not part of the
    repository.  The parts with fixed behaviour that the package relies on
    ([fmt.Sprintf], [fmt.Errorf], [io.ReadAll], the zero-value checks of
    a type assertion) are written out; the parts that depend on the outside
    world ([net/url] parsing, [encoding/json], the HTTP exchange) are the
    fields of the class [Runtime], over which every theorem quantifies. *)

From Stdlib Require Import ZArith String Ascii DecimalString.
From Stdlib Require Floats.PrimFloat.
From stdpp Require Import gmap strings list.

Set Warnings "-register-all".
Local Open Scope string_scope.

(** ** Go values *)

(** What an [any] holds after [encoding/json] decoded into it: [nil],
    [bool], [float64], [string], [[]any] or [map[string]any].  A Go map is
    a reference that may be nil, hence the [option]. *)
Inductive any : Type :=
| any_nil
| any_bool (b : bool)
| any_float64 (f : PrimFloat.float)
| any_string (s : string)
| any_slice (l : list any)
| any_map (m : option (gmap string any)).

(** The Go type [map[string]any]; [None] is the nil map. *)
Abbreviation mapStringAny := (option (gmap string any)).

(** [v, ok := m[key]]: a nil map has no entries. *)
Definition map_index (m : mapStringAny) (key : string) : option any :=
  match m with
  | Some entries => entries !! key
  | None => None
  end.

(** Dynamic types, as a failed type assertion reports them. *)
Inductive kind : Type :=
| kind_bool | kind_float64 | kind_string | kind_slice | kind_map.

Definition TypeOf (v : any) : option kind :=
  match v with
  | any_nil => None
  | any_bool _ => Some kind_bool
  | any_float64 _ => Some kind_float64
  | any_string _ => Some kind_string
  | any_slice _ => Some kind_slice
  | any_map _ => Some kind_map
  end.

(** The [error] interface: a plain message, or a message that wraps
    another error (what [fmt.Errorf] builds for the verb [%w]). *)
Inductive error : Type :=
| errorString (s : string)
| wrapError (msg : string) (err : error).

Definition Error (e : error) : string :=
  match e with
  | errorString s => s
  | wrapError msg _ => msg
  end.

Definition Unwrap (e : error) : option error :=
  match e with
  | errorString _ => None
  | wrapError _ err => Some err
  end.

(** A Go result pair [(T, error)] in which exactly one side is set. *)
Inductive Result (A : Type) : Type :=
| Ok (a : A)
| Err (err : error).
Arguments Ok {A} a.
Arguments Err {A} err.

(** Run-time panics the package can raise. *)
Inductive panic : Type :=
| NilDereference
| TypeAssertionError (concrete : option kind) (asserted : kind).

Inductive outcome (A : Type) : Type :=
| Return (a : A)
| Panic (p : panic).
Arguments Return {A} a.
Arguments Panic {A} p.

(** ** Package fmt *)

Module fmt.

Inductive arg : Type :=
| arg_string (s : string)
| arg_int (z : Z)
| arg_error (e : error).

(** [strconv.Itoa], the text of an [int] under [%d]. *)
Definition Itoa (z : Z) : string := NilZero.string_of_int (Z.to_int z).

(** One operand under one verb.  The package only uses [%s] with
    strings, [%d] with ints and [%w] with errors; any other pairing is
    rendered as Go's bad-verb marker. *)
Definition verb (v : ascii) (a : arg) : string :=
  match a with
  | arg_string s =>
      if (Ascii.eqb v "s" || Ascii.eqb v "v")%bool then s
      else "%!" +:+ String v "(string=" +:+ s +:+ ")"
  | arg_int z =>
      if (Ascii.eqb v "d" || Ascii.eqb v "v")%bool then Itoa z
      else "%!" +:+ String v "(int=" +:+ Itoa z +:+ ")"
  | arg_error e =>
      if (Ascii.eqb v "w" || Ascii.eqb v "v" || Ascii.eqb v "s")%bool
      then Error e
      else "%!" +:+ String v "(error=" +:+ Error e +:+ ")"
  end.

Fixpoint Sprintf (format : string) (a : list arg) : string :=
  match format with
  | EmptyString => EmptyString
  | String c rest =>
      if Ascii.eqb c "%" then
        match rest with
        | EmptyString => "%!(NOVERB)"
        | String v rest' =>
            if Ascii.eqb v "%" then String "%" (Sprintf rest' a)
            else match a with
                 | x :: a' => verb v x +:+ Sprintf rest' a'
                 | [] => "%!" +:+ String v "(MISSING)" +:+ Sprintf rest' []
                 end
        end
      else String c (Sprintf rest a)
  end.

(** The operand of the first [%w] of the format, if it is an error. *)
Fixpoint wrapped (format : string) (a : list arg) : option error :=
  match format with
  | EmptyString => None
  | String c rest =>
      if Ascii.eqb c "%" then
        match rest with
        | EmptyString => None
        | String v rest' =>
            if Ascii.eqb v "%" then wrapped rest' a
            else match a with
                 | arg_error e :: a' =>
                     if Ascii.eqb v "w" then Some e else wrapped rest' a'
                 | _ :: a' => wrapped rest' a'
                 | [] => None
                 end
        end
      else wrapped rest a
  end.

Definition Errorf (format : string) (a : list arg) : error :=
  match wrapped format a with
  | Some err => wrapError (Sprintf format a) err
  | None => errorString (Sprintf format a)
  end.

End fmt.

(** ** Package io *)

Module io.

(** A response body as its reader delivers it: the bytes that can be
    read, and the error (if any) that ends the stream instead of EOF. *)
Record ReadCloser : Type := { content : string; readErr : option error }.

Definition ReadAll (r : ReadCloser) : string * option error :=
  (content r, readErr r).

End io.

(** ** Package net/http *)

Module http.

Record Request : Type := {
  Method : string;
  URL : string;
  Header : gmap string (list string);
  ReqBody : option string
}.

Record Response : Type := {
  StatusCode : Z;
  Body : io.ReadCloser
}.

(** [req.Header.Set(key, value)] *)
Definition Header_Set (req : Request) (key value : string) : Request :=
  {| Method := Method req; URL := URL req;
     Header := <[key := [value]]> (Header req);
     ReqBody := ReqBody req |}.

(** An [*http.Client] is modelled by what its [Do] answers: the final
    response or the transport error, as a function of the requests issued
    so far and of the request.  Redirects, connection reuse and the like
    happen inside one [Do]. *)
Record Client : Type := {
  exchange : list Request -> Request -> Result Response
}.

Definition StatusOK : Z := 200.
Definition StatusNoContent : Z := 204.

End http.

(** ** The outside world *)

Class Runtime : Type := {
  (** [url.Parse] inside [http.NewRequest]: [Some err] when it rejects. *)
  url_Parse : string -> option error;
  (** [json.Marshal] of a [map[string]any] *)
  json_Marshal : mapStringAny -> Result string;
  (** [json.NewDecoder(body).Decode(&result)] into a nil
      [map[string]any]: the error, or the value [result] then holds *)
  json_Decode : io.ReadCloser -> Result mapStringAny;
  (** the behaviour of the zero-value client [&http.Client{}] *)
  http_DefaultClient : http.Client
}.

(** ** The package *)

(** DirectusClient holds the configuration for a Directus instance. *)
Record DirectusClient : Type := {
  URL : string;
  AccessToken : string;
  HTTPClient : option http.Client
}.

(** The state a run can touch: the allocated [DirectusClient] structs
    (a [*DirectusClient] is an index, an unallocated one is nil), the
    requests handed to [Do] so far, and the lines printed. *)
Record World : Type := {
  clients : list DirectusClient;
  network : list http.Request;
  stdout : list string
}.

Definition M (A : Type) : Type := World -> outcome A * World.

Definition ret {A} (a : A) : M A := fun w => (Return a, w).

Definition bind {A B} (m : M A) (k : A -> M B) : M B :=
  fun w =>
    match m w with
    | (Return a, w') => k a w'
    | (Panic p, w') => (Panic p, w')
    end.

Definition raise {A} (p : panic) : M A := fun w => (Panic p, w).

Notation "x <- m ;; k" := (bind m (fun x => k))
  (at level 100, m at next level, right associativity).

(** [*c] *)
Definition deref (c : nat) : M DirectusClient :=
  fun w =>
    match clients w !! c with
    | Some cl => (Return cl, w)
    | None => (Panic NilDereference, w)
    end.

(** [&DirectusClient{...}] *)
Definition new (cl : DirectusClient) : M nat :=
  fun w =>
    (Return (length (clients w)),
     {| clients := clients w ++ [cl];
        network := network w;
        stdout := stdout w |}).

(** [data.(map[string]any)], the one-result form, which panics. *)
Definition assert_map (data : any) : M mapStringAny :=
  match data with
  | any_map m => ret m
  | _ => raise (TypeAssertionError (TypeOf data) kind_map)
  end.

(** [fmt.Println(line)] *)
Definition Println (line : string) : M unit :=
  fun w =>
    (Return tt,
     {| clients := clients w;
        network := network w;
        stdout := stdout w ++ [line] |}).

(** [client.Do(req)] *)
Definition Do (client : option http.Client) (req : http.Request)
  : M (Result http.Response) :=
  fun w =>
    match client with
    | None => (Panic NilDereference, w)
    | Some cl =>
        (Return (http.exchange cl (network w) req),
         {| clients := clients w;
            network := network w ++ [req];
            stdout := stdout w |})
    end.

Section Package.

Context {RT : Runtime}.

(** [http.NewRequest]: the methods used here are valid, so the URL is
    all it can reject. *)
Definition NewRequest (method url : string) (body : option string)
  : Result http.Request :=
  match url_Parse url with
  | Some err => Err err
  | None =>
      Ok {| http.Method := method; http.URL := url;
            http.Header := ∅; http.ReqBody := body |}
  end.

(** NewDirectusClient creates a new client for a Directus instance. *)
Definition NewDirectusClient (url accessToken : string) : M nat :=
  new {| URL := url;
         AccessToken := accessToken;
         HTTPClient := Some http_DefaultClient |}.

(** GetSnapshot retrieves a schema snapshot from the Directus instance.
    ([defer resp.Body.Close()] leaves no trace in [World].) *)
Definition GetSnapshot (c : nat) : M (Result mapStringAny) :=
  cl <- deref c ;;
  let url := fmt.Sprintf "%s/schema/snapshot?access_token=%s"
               [fmt.arg_string (URL cl); fmt.arg_string (AccessToken cl)] in
  match NewRequest "GET" url None with
  | Err err =>
      ret (Err (fmt.Errorf "failed to create snapshot request: %w"
                  [fmt.arg_error err]))
  | Ok req =>
      r <- Do (HTTPClient cl) req ;;
      match r with
      | Err err =>
          ret (Err (fmt.Errorf "failed to execute snapshot request: %w"
                      [fmt.arg_error err]))
      | Ok resp =>
          if negb (http.StatusCode resp =? http.StatusOK)%Z then
            let '(body, _) := io.ReadAll (http.Body resp) in
            ret (Err (fmt.Errorf
                        "snapshot request failed with status %d: %s"
                        [fmt.arg_int (http.StatusCode resp);
                         fmt.arg_string body]))
          else
            match json_Decode (http.Body resp) with
            | Err err =>
                ret (Err (fmt.Errorf
                            "failed to decode snapshot response: %w"
                            [fmt.arg_error err]))
            | Ok result =>
                match map_index result "data" with
                | Some data =>
                    m <- assert_map data ;;
                    ret (Ok m)
                | None =>
                    ret (Err (fmt.Errorf
                      "snapshot response does not contain 'data' field" []))
                end
            end
      end
  end.

(** GetDiff retrieves a schema diff between the target instance and the
    provided snapshot. *)
Definition GetDiff (c : nat) (snapshot : mapStringAny) (force : bool)
  : M (Result mapStringAny) :=
  cl <- deref c ;;
  let url := fmt.Sprintf "%s/schema/diff?access_token=%s"
               [fmt.arg_string (URL cl); fmt.arg_string (AccessToken cl)] in
  let url := if force then url +:+ "&force=true" else url in
  match json_Marshal snapshot with
  | Err err =>
      ret (Err (fmt.Errorf
                  "failed to marshal snapshot for diff request: %w"
                  [fmt.arg_error err]))
  | Ok requestBody =>
      match NewRequest "POST" url (Some requestBody) with
      | Err err =>
          ret (Err (fmt.Errorf "failed to create diff request: %w"
                      [fmt.arg_error err]))
      | Ok req =>
          let req := http.Header_Set req "Content-Type" "application/json" in
          r <- Do (HTTPClient cl) req ;;
          match r with
          | Err err =>
              ret (Err (fmt.Errorf "failed to execute diff request: %w"
                          [fmt.arg_error err]))
          | Ok resp =>
              if negb (http.StatusCode resp =? http.StatusOK)%Z then
                let '(body, _) := io.ReadAll (http.Body resp) in
                ret (Err (fmt.Errorf
                            "diff request failed with status %d: %s"
                            [fmt.arg_int (http.StatusCode resp);
                             fmt.arg_string body]))
              else
                match json_Decode (http.Body resp) with
                | Err err =>
                    ret (Err (fmt.Errorf
                                "failed to decode diff response: %w"
                                [fmt.arg_error err]))
                | Ok result =>
                    match map_index result "data" with
                    | Some data =>
                        m <- assert_map data ;;
                        ret (Ok m)
                    | None =>
                        ret (Err (fmt.Errorf
                          "diff response does not contain 'data' field" []))
                    end
                end
          end
      end
  end.

(** ApplyDiff applies a schema diff to the Directus instance. *)
Definition ApplyDiff (c : nat) (diff : mapStringAny) : M (option error) :=
  cl <- deref c ;;
  let url := fmt.Sprintf "%s/schema/apply?access_token=%s"
               [fmt.arg_string (URL cl); fmt.arg_string (AccessToken cl)] in
  match json_Marshal diff with
  | Err err =>
      ret (Some (fmt.Errorf "failed to marshal diff for apply request: %w"
                   [fmt.arg_error err]))
  | Ok requestBody =>
      match NewRequest "POST" url (Some requestBody) with
      | Err err =>
          ret (Some (fmt.Errorf "failed to create apply request: %w"
                       [fmt.arg_error err]))
      | Ok req =>
          let req := http.Header_Set req "Content-Type" "application/json" in
          r <- Do (HTTPClient cl) req ;;
          match r with
          | Err err =>
              ret (Some (fmt.Errorf "failed to execute apply request: %w"
                           [fmt.arg_error err]))
          | Ok resp =>
              if negb (http.StatusCode resp =? http.StatusNoContent)%Z then
                let '(body, _) := io.ReadAll (http.Body resp) in
                ret (Some (fmt.Errorf
                             "apply request failed with status %d: %s"
                             [fmt.arg_int (http.StatusCode resp);
                              fmt.arg_string body]))
              else ret None
          end
      end
  end.

(** Migrate performs a full schema migration from a base project to a
    target project. *)
Definition Migrate (baseURL baseToken targetURL targetToken : string)
    (force : bool) : M (option error) :=
  baseClient <- NewDirectusClient baseURL baseToken ;;
  targetClient <- NewDirectusClient targetURL targetToken ;;
  _ <- Println "Retrieving snapshot from base project..." ;;
  r <- GetSnapshot baseClient ;;
  match r with
  | Err err =>
      ret (Some (fmt.Errorf "failed to get snapshot: %w" [fmt.arg_error err]))
  | Ok snapshot =>
      _ <- Println "Snapshot retrieved successfully." ;;
      _ <- Println "Retrieving diff from target project..." ;;
      r <- GetDiff targetClient snapshot force ;;
      match r with
      | Err err =>
          ret (Some (fmt.Errorf "failed to get diff: %w" [fmt.arg_error err]))
      | Ok diff =>
          _ <- Println "Diff retrieved successfully." ;;
          _ <- Println "Applying diff to target project..." ;;
          r <- ApplyDiff targetClient diff ;;
          match r with
          | Some err =>
              ret (Some (fmt.Errorf "failed to apply diff: %w"
                           [fmt.arg_error err]))
          | None =>
              _ <- Println "Diff applied successfully. Migration complete." ;;
              ret None
          end
      end
  end.

End Package.

(** ** Requests as the wire protocol describes them

    The three requests of the protocol table, written independently of the
    operations, to compare with what the operations really send. *)

Definition snapshotURL (cl : DirectusClient) : string :=
  URL cl +:+ "/schema/snapshot?access_token=" +:+ AccessToken cl.

Definition diffURL (cl : DirectusClient) (force : bool) : string :=
  URL cl +:+ "/schema/diff?access_token=" +:+ AccessToken cl
    +:+ (if force then "&force=true" else "").

Definition applyURL (cl : DirectusClient) : string :=
  URL cl +:+ "/schema/apply?access_token=" +:+ AccessToken cl.

Definition jsonHeader : gmap string (list string) :=
  {[ "Content-Type" := ["application/json"] ]}.

Definition snapshotRequest (cl : DirectusClient) : http.Request :=
  {| http.Method := "GET"; http.URL := snapshotURL cl;
     http.Header := ∅; http.ReqBody := None |}.

Definition diffRequest (cl : DirectusClient) (force : bool) (body : string)
  : http.Request :=
  {| http.Method := "POST"; http.URL := diffURL cl force;
     http.Header := jsonHeader; http.ReqBody := Some body |}.

Definition applyRequest (cl : DirectusClient) (body : string) : http.Request :=
  {| http.Method := "POST"; http.URL := applyURL cl;
     http.Header := jsonHeader; http.ReqBody := Some body |}.

(** The world after one more request went through [Do]. *)
Definition sent (w : World) (req : http.Request) : World :=
  {| clients := clients w;
     network := network w ++ [req];
     stdout := stdout w |}.

(** The world after one more line was printed. *)
Definition printed (w : World) (line : string) : World :=
  {| clients := clients w;
     network := network w;
     stdout := stdout w ++ [line] |}.

(** [fmt.Errorf(prefix + "%w", err)] keeps [err] and prefixes its text. *)
Definition wrap (context : string) (err : error) : error :=
  wrapError (context +:+ Error err) err.

(** [fmt.Errorf(op + " request failed with status %d: %s", code, body)] *)
Definition rejected (op : string) (resp : http.Response) : error :=
  errorString (op +:+ " request failed with status "
                  +:+ fmt.Itoa (http.StatusCode resp) +:+ ": "
                  +:+ io.content (http.Body resp)).

(** What [NewDirectusClient] allocates. *)
Definition directusClient {RT : Runtime} (url token : string) : DirectusClient :=
  {| URL := url; AccessToken := token; HTTPClient := Some http_DefaultClient |}.

(** The world in which [Migrate] calls [GetSnapshot]: both clients
    allocated (base first), the first progress line printed. *)
Definition started {RT : Runtime} (w : World)
    (baseURL baseToken targetURL targetToken : string) : World :=
  {| clients := (clients w ++ [directusClient baseURL baseToken])
                  ++ [directusClient targetURL targetToken];
     network := network w;
     stdout := stdout w ++ ["Retrieving snapshot from base project..."] |}.

(** The world in which [Migrate] calls [GetDiff], from the one
    [GetSnapshot] left. *)
Definition diffing (w1 : World) : World :=
  printed (printed w1 "Snapshot retrieved successfully.")
          "Retrieving diff from target project...".

(** The world in which [Migrate] calls [ApplyDiff], from the one [GetDiff]
    left. *)
Definition applying (w2 : World) : World :=
  printed (printed w2 "Diff retrieved successfully.")
          "Applying diff to target project...".

(** Whether the byte [c] occurs in [s]. *)
Fixpoint mentions (c : ascii) (s : string) : bool :=
  match s with
  | EmptyString => false
  | String a s' => Ascii.eqb a c || mentions c s'
  end.

(** Number of positions of [s] at which [pat] starts. *)
Fixpoint occurrences (pat s : string) : nat :=
  match s with
  | EmptyString => if String.prefix pat EmptyString then 1 else 0
  | String _ s' => (if String.prefix pat s then 1 else 0) + occurrences pat s'
  end.

(** ** A test double for the outside world

    A scripted server and small stand-ins for [net/url] and
    [encoding/json], used to run the package on concrete inputs. *)

Module Stub.

(** The first check of [url.Parse]: no ASCII control byte. *)
Definition containsCTLByte (s : string) : bool :=
  existsb (fun c => (nat_of_ascii c <? 32)%nat || (nat_of_ascii c =? 127)%nat)
          (list_ascii_of_string s).

Definition parse (url : string) : option error :=
  if containsCTLByte url
  then Some (errorString "net/url: invalid control character in URL")
  else None.

(** Encodes a document as the list of its top-level keys. *)
Definition marshal (m : mapStringAny) : Result string :=
  match m with
  | None => Ok "null"
  | Some entries =>
      Ok ("{" +:+ String.concat "," (map_to_list entries).*1 +:+ "}")
  end.

Definition document (key : string) : any :=
  any_map (Some {[ key := any_slice [] ]}).

(** Decodes a handful of named bodies. *)
Definition decode (body : io.ReadCloser) : Result mapStringAny :=
  match io.readErr body with
  | Some err => Err err
  | None =>
      let text := io.content body in
      if String.eqb text "snapshot-envelope"
      then Ok (Some {[ "data" := document "fields" ]})
      else if String.eqb text "diff-envelope"
      then Ok (Some {[ "data" := document "changes" ]})
      else if String.eqb text "array-envelope"
      then Ok (Some {[ "data" := any_slice [] ]})
      else if String.eqb text "no-data"
      then Ok (Some {[ "errors" := any_slice [] ]})
      else if String.eqb text "null"
      then Ok None
      else Err (errorString "invalid character looking for beginning of value")
  end.

(** One line of a server script: method, URL, status and body. *)
Record route : Type := {
  on_method : string;
  on_url : string;
  status : Z;
  payload : string
}.

Definition server (script : list route) : http.Client :=
  {| http.exchange := fun _ req =>
       match find (fun r => String.eqb (on_method r) (http.Method req)
                            && String.eqb (on_url r) (http.URL req))
                  script with
       | Some r =>
           Ok {| http.StatusCode := status r;
                 http.Body := {| io.content := payload r;
                                 io.readErr := None |} |}
       | None => Err (errorString "dial tcp: connection refused")
       end |}.

Definition runtime (script : list route) : Runtime :=
  {| url_Parse := parse;
     json_Marshal := marshal;
     json_Decode := decode;
     http_DefaultClient := server script |}.

Definition empty : World := {| clients := []; network := []; stdout := [] |}.

(** A world holding one client, at index 0. *)
Definition world (script : list route) (url token : string) : World :=
  {| clients := [ {| URL := url; AccessToken := token;
                     HTTPClient := Some (server script) |} ];
     network := []; stdout := [] |}.

(** The happy path of the specification's end-to-end scenario. *)
Definition healthy : list route :=
  [ {| on_method := "GET";
       on_url := "http://base/schema/snapshot?access_token=bt";
       status := 200; payload := "snapshot-envelope" |};
    {| on_method := "POST";
       on_url := "http://target/schema/diff?access_token=tt";
       status := 200; payload := "diff-envelope" |};
    {| on_method := "POST";
       on_url := "http://target/schema/diff?access_token=tt&force=true";
       status := 200; payload := "diff-envelope" |};
    {| on_method := "POST";
       on_url := "http://target/schema/apply?access_token=tt";
       status := 204; payload := "" |} ].

(** A base instance whose snapshot endpoint answers 200 with an envelope
    whose [data] is an array. *)
Definition array_data : list route :=
  [ {| on_method := "GET";
       on_url := "http://base/schema/snapshot?access_token=bt";
       status := 200; payload := "array-envelope" |} ].

(** A base instance whose snapshot endpoint answers 200 with an object
    that has no [data] key, and a target whose diff endpoint does too. *)
Definition no_data : list route :=
  [ {| on_method := "GET";
       on_url := "http://base/schema/snapshot?access_token=bt";
       status := 200; payload := "no-data" |};
    {| on_method := "POST";
       on_url := "http://base/schema/diff?access_token=bt";
       status := 200; payload := "no-data" |} ].

(** Instances that answer every operation with 500 and a message, the
    specification's failure scenario. *)
Definition failing : list route :=
  [ {| on_method := "GET";
       on_url := "http://base/schema/snapshot?access_token=bt";
       status := 500; payload := "internal error" |};
    {| on_method := "POST";
       on_url := "http://base/schema/diff?access_token=bt";
       status := 500; payload := "internal error" |};
    {| on_method := "POST";
       on_url := "http://base/schema/apply?access_token=bt";
       status := 500; payload := "internal error" |} ].

(** The specification's third scenario: snapshot and diff succeed, apply
    answers 400 with a message. *)
Definition conflict : list route :=
  [ {| on_method := "GET";
       on_url := "http://base/schema/snapshot?access_token=bt";
       status := 200; payload := "snapshot-envelope" |};
    {| on_method := "POST";
       on_url := "http://target/schema/diff?access_token=tt";
       status := 200; payload := "diff-envelope" |};
    {| on_method := "POST";
       on_url := "http://target/schema/apply?access_token=tt";
       status := 400; payload := "conflict" |} ].

(** The second scenario, with a target that is not reachable at all. *)
Definition unreachable_target : list route :=
  [ {| on_method := "GET";
       on_url := "http://base/schema/snapshot?access_token=bt";
       status := 200; payload := "snapshot-envelope" |} ].

(** The URLs of the requests a run left in the log. *)
Definition urls (w : World) : list string := map http.URL (network w).

End Stub.

(** ** Package errors *)

(** [errors.Is] on the errors of this model: equal to the target, or
    wrapping an error that is. *)
Fixpoint Is (err target : error) : Prop :=
  err = target
  \/ match err with
     | errorString _ => False
     | wrapError _ inner => Is inner target
     end.

(** ** The command (main.go) *)

Module strconv.

(** [strconv.ParseBool].  Its only caller tests the error and drops it,
    so a failure is [None]. *)
Definition ParseBool (str : string) : option bool :=
  if existsb (String.eqb str) ["1"; "t"; "T"; "true"; "TRUE"; "True"]
  then Some true
  else if existsb (String.eqb str) ["0"; "f"; "F"; "false"; "FALSE"; "False"]
  then Some false
  else None.

End strconv.

Module os.

(** [os.Getenv]: the value, or the empty string when the variable is not
    set. *)
Definition Getenv (env : gmap string string) (key : string) : string :=
  default "" (env !! key).

End os.

(** What the command needs beyond [Runtime]: [godotenv.Load], which reads
    the [.env] file into the environment or fails. *)
Class Host : Type := {
  godotenv_Load : gmap string string -> Result (gmap string string)
}.

(** What reaches standard error: a line of package [log] (which puts a
    time stamp before the message) or text written as it is. *)
Inductive write : Type :=
| Logged (msg : string)
| Written (text : string).

(** How the process ends: [os.Exit(code)], with returning from [main]
    being [Exit 0], or an unrecovered panic. *)
Inductive exit : Type :=
| Exit (code : Z)
| Crash (p : panic).

Definition LF : string := String "010" "".

Section Command.

Context {RT : Runtime} {HOST : Host}.

(** [func main()], from the environment and the world it starts in to its
    exit, what it wrote to standard error and the world it leaves. *)
Definition main (env : gmap string string) (w : World)
  : exit * list write * World :=
  match godotenv_Load env with
  | Err _ => (Exit 1, [Logged "Error loading .env file"], w)
  | Ok env =>
      let baseURL := os.Getenv env "BASE_URL" in
      let baseToken := os.Getenv env "BASE_TOKEN" in
      let targetURL := os.Getenv env "TARGET_URL" in
      let targetToken := os.Getenv env "TARGET_TOKEN" in
      match strconv.ParseBool (os.Getenv env "FORCE") with
      | None => (Exit 1, [Logged "Error parsing FORCE from .env file"], w)
      | Some force =>
          match Migrate baseURL baseToken targetURL targetToken force w with
          | (Return (Some err), w') =>
              (Exit 1,
               [Written (fmt.Sprintf ("Migration failed: %v" +:+ LF)
                           [fmt.arg_error err])],
               w')
          | (Return None, w') => (Exit 0, [], w')
          | (Panic p, w') => (Crash p, [], w')
          end
      end
  end.

End Command.

(** What a client's instance answers, given the requests issued before.

    [snapshot_served]: the snapshot request is accepted and answered with
    status 200 and an envelope whose [data] is [data]. *)
Definition snapshot_served {RT : Runtime} (hc : http.Client)
    (history : list http.Request) (cl : DirectusClient) (data : any) : Prop :=
  url_Parse (snapshotURL cl) = None
  /\ exists resp result,
       http.exchange hc history (snapshotRequest cl) = Ok resp
       /\ http.StatusCode resp = 200%Z
       /\ json_Decode (http.Body resp) = Ok result
       /\ map_index result "data" = Some data.

(** [diff_served]: [snapshot] marshals to [body], and the diff request
    with that body is accepted and answered with status 200 and an
    envelope whose [data] is [data]. *)
Definition diff_served {RT : Runtime} (hc : http.Client)
    (history : list http.Request) (cl : DirectusClient) (force : bool)
    (snapshot : mapStringAny) (body : string) (data : any) : Prop :=
  json_Marshal snapshot = Ok body
  /\ url_Parse (diffURL cl force) = None
  /\ exists resp result,
       http.exchange hc history (diffRequest cl force body) = Ok resp
       /\ http.StatusCode resp = 200%Z
       /\ json_Decode (http.Body resp) = Ok result
       /\ map_index result "data" = Some data.

(** [apply_served]: [diff] marshals to [body], and the apply request with
    that body is accepted and answered with status 204. *)
Definition apply_served {RT : Runtime} (hc : http.Client)
    (history : list http.Request) (cl : DirectusClient)
    (diff : mapStringAny) (body : string) : Prop :=
  json_Marshal diff = Ok body
  /\ url_Parse (applyURL cl) = None
  /\ exists resp,
       http.exchange hc history (applyRequest cl body) = Ok resp
       /\ http.StatusCode resp = 204%Z.

(** The progress lines of [Migrate], in the order it prints them. *)
Definition progress : list string :=
  [ "Retrieving snapshot from base project...";
    "Snapshot retrieved successfully.";
    "Retrieving diff from target project...";
    "Diff retrieved successfully.";
    "Applying diff to target project...";
    "Diff applied successfully. Migration complete." ].

(** More test doubles: hosts whose [.env] file holds given variables or
    is missing, and servers for the failure paths. *)
Module Fixture.

Definition dotenv (vars : list (string * string)) : Host :=
  {| godotenv_Load := fun env => Ok (env ∪ list_to_map vars) |}.

Definition no_dotenv : Host :=
  {| godotenv_Load := fun _ =>
       Err (errorString "open .env: no such file or directory") |}.

Definition complete (force : string) : list (string * string) :=
  [ ("BASE_URL", "http://base"); ("BASE_TOKEN", "bt");
    ("TARGET_URL", "http://target"); ("TARGET_TOKEN", "tt");
    ("FORCE", force) ].

(** A base that answers the snapshot request with a body that is not
    JSON, and with [null] as [data] on another token. *)
Definition odd_bodies : list Stub.route :=
  [ {| Stub.on_method := "GET";
       Stub.on_url := "http://base/schema/snapshot?access_token=bt";
       Stub.status := 200; Stub.payload := "<html>" |};
    {| Stub.on_method := "POST";
       Stub.on_url := "http://base/schema/diff?access_token=bt";
       Stub.status := 200; Stub.payload := "<html>" |};
    {| Stub.on_method := "POST";
       Stub.on_url := "http://base/schema/apply?access_token=bt";
       Stub.status := 204; Stub.payload := "not empty" |} ].

(** A runtime whose [json.Marshal] always fails. *)
Definition unmarshalable (script : list Stub.route) : Runtime :=
  {| url_Parse := Stub.parse;
     json_Marshal := fun _ => Err (errorString "json: unsupported value: NaN");
     json_Decode := Stub.decode;
     http_DefaultClient := Stub.server script |}.

(** A target whose diff endpoint answers 200 with an array as [data]. *)
Definition array_diff : list Stub.route :=
  [ {| Stub.on_method := "POST";
       Stub.on_url := "http://target/schema/diff?access_token=tt";
       Stub.status := 200; Stub.payload := "array-envelope" |} ].

(** A world holding one client written as a struct literal, without an
    [HTTPClient]. *)
Definition bare (url token : string) : World :=
  {| clients := [ {| URL := url; AccessToken := token; HTTPClient := None |} ];
     network := []; stdout := [] |}.

End Fixture.

(** * Properties *)

(** ** Strings and formats *)

Lemma append_cons (c : ascii) (s t : string) :
  String c s +:+ t = String c (s +:+ t).
Proof. reflexivity. Qed.

Lemma append_nil_r (s : string) : s +:+ "" = s.
Proof.
  induction s as [|c s IH]; [reflexivity |].
  now rewrite append_cons, IH.
Qed.

Lemma append_assoc (s t u : string) : (s +:+ t) +:+ u = s +:+ t +:+ u.
Proof.
  induction s as [|c s IH]; [reflexivity |].
  now rewrite !append_cons, IH.
Qed.

Lemma Sprintf_snapshotURL (cl : DirectusClient) :
  fmt.Sprintf "%s/schema/snapshot?access_token=%s"
    [fmt.arg_string (URL cl); fmt.arg_string (AccessToken cl)]
  = snapshotURL cl.
Proof. unfold snapshotURL. simpl. now rewrite append_nil_r. Qed.

Lemma Sprintf_diffURL (cl : DirectusClient) (force : bool) :
  (if force
   then fmt.Sprintf "%s/schema/diff?access_token=%s"
          [fmt.arg_string (URL cl); fmt.arg_string (AccessToken cl)]
        +:+ "&force=true"
   else fmt.Sprintf "%s/schema/diff?access_token=%s"
          [fmt.arg_string (URL cl); fmt.arg_string (AccessToken cl)])
  = diffURL cl force.
Proof.
  unfold diffURL. simpl. rewrite append_nil_r.
  destruct force; [| now rewrite append_nil_r].
  rewrite append_assoc. f_equal.
Qed.

Lemma Sprintf_applyURL (cl : DirectusClient) :
  fmt.Sprintf "%s/schema/apply?access_token=%s"
    [fmt.arg_string (URL cl); fmt.arg_string (AccessToken cl)]
  = applyURL cl.
Proof. unfold applyURL. simpl. now rewrite append_nil_r. Qed.


Lemma sent_built (w : World) (req : http.Request) :
  {| clients := clients w; network := network w ++ [req]; stdout := stdout w |}
  = sent w req.
Proof. reflexivity. Qed.

Lemma printed_built (w : World) (line : string) :
  {| clients := clients w; network := network w; stdout := stdout w ++ [line] |}
  = printed w line.
Proof. reflexivity. Qed.

Lemma snapshotRequest_built (cl : DirectusClient) :
  {| http.Method := "GET"; http.URL := snapshotURL cl;
     http.Header := ∅; http.ReqBody := None |}
  = snapshotRequest cl.
Proof. reflexivity. Qed.

Lemma diffRequest_built (cl : DirectusClient) (force : bool) (body : string) :
  http.Header_Set
    {| http.Method := "POST"; http.URL := diffURL cl force;
       http.Header := ∅; http.ReqBody := Some body |}
    "Content-Type" "application/json"
  = diffRequest cl force body.
Proof. unfold http.Header_Set, diffRequest, jsonHeader. simpl. now rewrite insert_empty. Qed.

Lemma applyRequest_built (cl : DirectusClient) (body : string) :
  http.Header_Set
    {| http.Method := "POST"; http.URL := applyURL cl;
       http.Header := ∅; http.ReqBody := Some body |}
    "Content-Type" "application/json"
  = applyRequest cl body.
Proof. unfold http.Header_Set, applyRequest, jsonHeader. simpl. now rewrite insert_empty. Qed.

(** Closes a goal that compares an error built by [fmt.Errorf] with its
    text written out. *)
Ltac fmt_done :=
  unfold wrap, rejected, fmt.Errorf; simpl;
  rewrite ?append_nil_r; reflexivity.

(** Runs an operation up to its call of [Do], given the client it is
    called on ([Hc]), the outcomes of marshalling and of [NewRequest]
    (rewritten from the context) and the client's transport ([Hhc]). *)
Ltac enter Hc :=
  unfold GetSnapshot, GetDiff, ApplyDiff, bind, deref;
  rewrite Hc; cbv zeta;
  rewrite ?Sprintf_snapshotURL, ?Sprintf_diffURL, ?Sprintf_applyURL.

Ltac build :=
  unfold NewRequest;
  repeat match goal with
    | H : json_Marshal _ = _ |- _ => rewrite H
    | H : url_Parse _ = _ |- _ => rewrite H
    end;
  rewrite ?snapshotRequest_built, ?diffRequest_built, ?applyRequest_built.

Ltac send Hhc Hex :=
  unfold Do; rewrite Hhc, Hex, sent_built.

Ltac status Hst :=
  unfold http.StatusOK, http.StatusNoContent;
  first [ rewrite Hst
        | let H := fresh in
          pose proof Hst as H; apply Z.eqb_neq in H; rewrite H ];
  simpl negb; cbv iota; unfold io.ReadAll; cbv iota beta.

(** ** The operations, path by path *)

Section Paths.

Context {RT : Runtime}.
Variables (c : nat) (w : World) (cl : DirectusClient) (hc : http.Client).
Hypothesis Hc : clients w !! c = Some cl.
Hypothesis Hhc : HTTPClient cl = Some hc.

Section Snapshot.

Hypothesis Hurl : url_Parse (snapshotURL cl) = None.

Lemma GetSnapshot_rejected resp :
  http.exchange hc (network w) (snapshotRequest cl) = Ok resp ->
  http.StatusCode resp <> 200%Z ->
  GetSnapshot c w
  = (Return (Err (rejected "snapshot" resp)), sent w (snapshotRequest cl)).
Proof.
  intros Hex Hst. enter Hc. build. send Hhc Hex. status Hst.
  unfold ret. do 3 f_equal. fmt_done.
Qed.

Lemma GetSnapshot_no_data resp result :
  http.exchange hc (network w) (snapshotRequest cl) = Ok resp ->
  http.StatusCode resp = 200%Z ->
  json_Decode (http.Body resp) = Ok result ->
  map_index result "data" = None ->
  GetSnapshot c w
  = (Return (Err (errorString
                    "snapshot response does not contain 'data' field")),
     sent w (snapshotRequest cl)).
Proof.
  intros Hex Hst Hdec Hdata. apply Z.eqb_eq in Hst.
  enter Hc. build. send Hhc Hex. status Hst.
  rewrite Hdec, Hdata. reflexivity.
Qed.

Lemma GetSnapshot_data resp result data :
  http.exchange hc (network w) (snapshotRequest cl) = Ok resp ->
  http.StatusCode resp = 200%Z ->
  json_Decode (http.Body resp) = Ok result ->
  map_index result "data" = Some data ->
  GetSnapshot c w
  = (match data with
     | any_map m => Return (Ok m)
     | _ => Panic (TypeAssertionError (TypeOf data) kind_map)
     end, sent w (snapshotRequest cl)).
Proof.
  intros Hex Hst Hdec Hdata. apply Z.eqb_eq in Hst.
  enter Hc. build. send Hhc Hex. status Hst.
  rewrite Hdec, Hdata. now destruct data.
Qed.

Lemma GetSnapshot_sends :
  exists o, GetSnapshot c w = (o, sent w (snapshotRequest cl)).
Proof.
  enter Hc. build. unfold Do. rewrite Hhc, sent_built.
  unfold assert_map, raise, ret.
  repeat case_match; simplify_eq; eauto.
Qed.

End Snapshot.

Section Diff.

Variables (snapshot : mapStringAny) (force : bool) (body : string).
Hypothesis Hbody : json_Marshal snapshot = Ok body.
Hypothesis Hurl : url_Parse (diffURL cl force) = None.

Lemma GetDiff_rejected resp :
  http.exchange hc (network w) (diffRequest cl force body) = Ok resp ->
  http.StatusCode resp <> 200%Z ->
  GetDiff c snapshot force w
  = (Return (Err (rejected "diff" resp)),
     sent w (diffRequest cl force body)).
Proof.
  intros Hex Hst. enter Hc. build. send Hhc Hex. status Hst.
  unfold ret. do 3 f_equal. fmt_done.
Qed.

Lemma GetDiff_no_data resp result :
  http.exchange hc (network w) (diffRequest cl force body) = Ok resp ->
  http.StatusCode resp = 200%Z ->
  json_Decode (http.Body resp) = Ok result ->
  map_index result "data" = None ->
  GetDiff c snapshot force w
  = (Return (Err (errorString
                    "diff response does not contain 'data' field")),
     sent w (diffRequest cl force body)).
Proof.
  intros Hex Hst Hdec Hdata. apply Z.eqb_eq in Hst.
  enter Hc. build. send Hhc Hex. status Hst.
  rewrite Hdec, Hdata. reflexivity.
Qed.

Lemma GetDiff_data resp result data :
  http.exchange hc (network w) (diffRequest cl force body) = Ok resp ->
  http.StatusCode resp = 200%Z ->
  json_Decode (http.Body resp) = Ok result ->
  map_index result "data" = Some data ->
  GetDiff c snapshot force w
  = (match data with
     | any_map m => Return (Ok m)
     | _ => Panic (TypeAssertionError (TypeOf data) kind_map)
     end, sent w (diffRequest cl force body)).
Proof.
  intros Hex Hst Hdec Hdata. apply Z.eqb_eq in Hst.
  enter Hc. build. send Hhc Hex. status Hst.
  rewrite Hdec, Hdata. now destruct data.
Qed.

Lemma GetDiff_sends :
  exists o,
    GetDiff c snapshot force w = (o, sent w (diffRequest cl force body)).
Proof.
  enter Hc. build. unfold Do. rewrite Hhc, sent_built.
  unfold assert_map, raise, ret.
  repeat case_match; simplify_eq; eauto.
Qed.

End Diff.

Section Apply.

Variables (diff : mapStringAny) (body : string).
Hypothesis Hbody : json_Marshal diff = Ok body.
Hypothesis Hurl : url_Parse (applyURL cl) = None.

Lemma ApplyDiff_rejected resp :
  http.exchange hc (network w) (applyRequest cl body) = Ok resp ->
  http.StatusCode resp <> 204%Z ->
  ApplyDiff c diff w
  = (Return (Some (rejected "apply" resp)), sent w (applyRequest cl body)).
Proof.
  intros Hex Hst. enter Hc. build. send Hhc Hex. status Hst.
  unfold ret. do 3 f_equal. fmt_done.
Qed.

Lemma ApplyDiff_accepted resp :
  http.exchange hc (network w) (applyRequest cl body) = Ok resp ->
  http.StatusCode resp = 204%Z ->
  ApplyDiff c diff w = (Return None, sent w (applyRequest cl body)).
Proof.
  intros Hex Hst. apply Z.eqb_eq in Hst.
  enter Hc. build. send Hhc Hex. status Hst. reflexivity.
Qed.

Lemma ApplyDiff_sends :
  exists o, ApplyDiff c diff w = (o, sent w (applyRequest cl body)).
Proof.
  enter Hc. build. unfold Do. rewrite Hhc, sent_built. unfold ret.
  repeat case_match; simplify_eq; eauto.
Qed.

End Apply.

End Paths.

(** ** What an operation may change

    Whatever the inputs, an operation leaves the world as it found it or
    with the one request of its [Do] added. *)

Section Frame.

Context {RT : Runtime}.

Lemma GetSnapshot_frame c w :
  snd (GetSnapshot c w) = w
  \/ exists cl, clients w !! c = Some cl
              /\ snd (GetSnapshot c w) = sent w (snapshotRequest cl).
Proof.
  destruct (clients w !! c) as [cl|] eqn:Hc;
    [| left; unfold GetSnapshot, bind, deref; now rewrite Hc].
  destruct (url_Parse (snapshotURL cl)) as [err|] eqn:Hurl;
    [left; enter Hc; build; reflexivity |].
  destruct (HTTPClient cl) as [hc|] eqn:Hhc;
    [| left; enter Hc; build; unfold Do; now rewrite Hhc].
  right. exists cl. split; [reflexivity |].
  destruct (GetSnapshot_sends c w cl hc Hc Hhc Hurl) as [o ->]. reflexivity.
Qed.

Lemma GetDiff_frame c snapshot force w :
  snd (GetDiff c snapshot force w) = w
  \/ exists cl body,
       clients w !! c = Some cl /\ json_Marshal snapshot = Ok body
       /\ snd (GetDiff c snapshot force w)
          = sent w (diffRequest cl force body).
Proof.
  destruct (clients w !! c) as [cl|] eqn:Hc;
    [| left; unfold GetDiff, bind, deref; now rewrite Hc].
  destruct (json_Marshal snapshot) as [body|err] eqn:Hbody;
    [| left; enter Hc; build; reflexivity].
  destruct (url_Parse (diffURL cl force)) as [err|] eqn:Hurl;
    [left; enter Hc; build; reflexivity |].
  destruct (HTTPClient cl) as [hc|] eqn:Hhc;
    [| left; enter Hc; build; unfold Do; now rewrite Hhc].
  right. exists cl, body. do 2 (split; [reflexivity |]).
  destruct (GetDiff_sends c w cl hc Hc Hhc snapshot force body Hbody Hurl)
    as [o ->].
  reflexivity.
Qed.

Lemma ApplyDiff_frame c diff w :
  snd (ApplyDiff c diff w) = w
  \/ exists cl body,
       clients w !! c = Some cl /\ json_Marshal diff = Ok body
       /\ snd (ApplyDiff c diff w) = sent w (applyRequest cl body).
Proof.
  destruct (clients w !! c) as [cl|] eqn:Hc;
    [| left; unfold ApplyDiff, bind, deref; now rewrite Hc].
  destruct (json_Marshal diff) as [body|err] eqn:Hbody;
    [| left; enter Hc; build; reflexivity].
  destruct (url_Parse (applyURL cl)) as [err|] eqn:Hurl;
    [left; enter Hc; build; reflexivity |].
  destruct (HTTPClient cl) as [hc|] eqn:Hhc;
    [| left; enter Hc; build; unfold Do; now rewrite Hhc].
  right. exists cl, body. do 2 (split; [reflexivity |]).
  destruct (ApplyDiff_sends c w cl hc Hc Hhc diff body Hbody Hurl) as [o ->].
  reflexivity.
Qed.

End Frame.

(** ** Migrate, step by step *)

Section Steps.

Context {RT : Runtime}.
Variables (baseURL baseToken targetURL targetToken : string) (force : bool).
Variable w : World.

Local Abbreviation base := (length (clients w)).
Local Abbreviation target := (S (length (clients w))).
Local Abbreviation w0 := (started w baseURL baseToken targetURL targetToken).

Lemma Migrate_enters :
  Migrate baseURL baseToken targetURL targetToken force w
  = (r <- GetSnapshot base ;;
     match r with
     | Err err =>
         ret (Some (fmt.Errorf "failed to get snapshot: %w" [fmt.arg_error err]))
     | Ok snapshot =>
         _ <- Println "Snapshot retrieved successfully." ;;
         _ <- Println "Retrieving diff from target project..." ;;
         r <- GetDiff target snapshot force ;;
         match r with
         | Err err =>
             ret (Some (fmt.Errorf "failed to get diff: %w" [fmt.arg_error err]))
         | Ok diff =>
             _ <- Println "Diff retrieved successfully." ;;
             _ <- Println "Applying diff to target project..." ;;
             r <- ApplyDiff target diff ;;
             match r with
             | Some err =>
                 ret (Some (fmt.Errorf "failed to apply diff: %w"
                              [fmt.arg_error err]))
             | None =>
                 _ <- Println "Diff applied successfully. Migration complete." ;;
                 ret None
             end
         end
     end) w0.
Proof.
  unfold Migrate, NewDirectusClient, new, Println.
  unfold bind at 1 2 3. simpl.
  unfold started, directusClient.
  now rewrite length_app, Nat.add_1_r.
Qed.

Lemma Migrate_snapshot_failed err w1 :
  GetSnapshot base w0 = (Return (Err err), w1) ->
  Migrate baseURL baseToken targetURL targetToken force w
  = (Return (Some (wrap "failed to get snapshot: " err)), w1).
Proof.
  intros H. rewrite Migrate_enters. unfold bind at 1. rewrite H.
  unfold ret. do 3 f_equal. fmt_done.
Qed.

Lemma Migrate_snapshot_panics p w1 :
  GetSnapshot base w0 = (Panic p, w1) ->
  Migrate baseURL baseToken targetURL targetToken force w = (Panic p, w1).
Proof. intros H. rewrite Migrate_enters. unfold bind at 1. now rewrite H. Qed.

Section AfterSnapshot.

Variables (snapshot : mapStringAny) (w1 : World).
Hypothesis Hsnapshot : GetSnapshot base w0 = (Return (Ok snapshot), w1).

Lemma Migrate_diff_failed err w2 :
  GetDiff target snapshot force (diffing w1) = (Return (Err err), w2) ->
  Migrate baseURL baseToken targetURL targetToken force w
  = (Return (Some (wrap "failed to get diff: " err)), w2).
Proof.
  intros H. rewrite Migrate_enters. unfold bind at 1. rewrite Hsnapshot.
  unfold bind at 1 2 3, Println. rewrite !printed_built.
  fold (diffing w1). rewrite H.
  unfold ret. do 3 f_equal. fmt_done.
Qed.

Lemma Migrate_diff_panics p w2 :
  GetDiff target snapshot force (diffing w1) = (Panic p, w2) ->
  Migrate baseURL baseToken targetURL targetToken force w = (Panic p, w2).
Proof.
  intros H. rewrite Migrate_enters. unfold bind at 1. rewrite Hsnapshot.
  unfold bind at 1 2 3, Println. rewrite !printed_built.
  fold (diffing w1). now rewrite H.
Qed.

Section AfterDiff.

Variables (diff : mapStringAny) (w2 : World).
Hypothesis Hdiff :
  GetDiff target snapshot force (diffing w1) = (Return (Ok diff), w2).

Lemma Migrate_applies :
  Migrate baseURL baseToken targetURL targetToken force w
  = match ApplyDiff target diff (applying w2) with
    | (Return (Some err), w3) =>
        (Return (Some (wrap "failed to apply diff: " err)), w3)
    | (Return None, w3) =>
        (Return None,
         printed w3 "Diff applied successfully. Migration complete.")
    | (Panic p, w3) => (Panic p, w3)
    end.
Proof.
  rewrite Migrate_enters. unfold bind at 1. rewrite Hsnapshot.
  unfold bind at 1 2 3, Println. rewrite !printed_built.
  fold (diffing w1). rewrite Hdiff.
  unfold bind at 1 2 3, Println. rewrite !printed_built.
  fold (applying w2).
  destruct (ApplyDiff target diff (applying w2)) as [[[err|]|p] w3];
    [| reflexivity | reflexivity].
  unfold ret. do 3 f_equal. fmt_done.
Qed.

End AfterDiff.

End AfterSnapshot.

End Steps.

(** * The claims *)

(** ** Envelope unwrapping *)

(** C1, as stated, fails: a 200 response whose body decodes as an object
    with a [data] key holding an array makes GetSnapshot panic on its type
    assertion instead of returning the array with no error. *)
Lemma GetSnapshot_array_data_panics :
  let RT := Stub.runtime Stub.array_data in
  let w := Stub.world Stub.array_data "http://base" "bt" in
  let body := {| io.content := "array-envelope"; io.readErr := None |} in
  http.exchange (Stub.server Stub.array_data) (network w)
    {| http.Method := "GET";
       http.URL := "http://base/schema/snapshot?access_token=bt";
       http.Header := ∅; http.ReqBody := None |}
  = Ok {| http.StatusCode := 200; http.Body := body |}
  /\ (exists result, json_Decode body = Ok result
                   /\ map_index result "data" = Some (any_slice []))
  /\ fst (GetSnapshot 0 w)
     = Panic (TypeAssertionError (Some kind_slice) kind_map).
Proof.
  cbv zeta. split; [reflexivity |]. split; [| reflexivity].
  eexists. split; reflexivity.
Qed.

(** C1, amended: for every response with status 200 whose body decodes as
    an object with a [data] key whose value [X] is a mapping, GetSnapshot
    and GetDiff return [X] and no error. *)
Theorem data_mapping_is_returned `{RT : Runtime} c w cl hc :
  clients w !! c = Some cl ->
  HTTPClient cl = Some hc ->
  (forall resp result X,
      url_Parse (snapshotURL cl) = None ->
      http.exchange hc (network w) (snapshotRequest cl) = Ok resp ->
      http.StatusCode resp = 200%Z ->
      json_Decode (http.Body resp) = Ok result ->
      map_index result "data" = Some (any_map X) ->
      fst (GetSnapshot c w) = Return (Ok X))
  /\ (forall snapshot force body resp result X,
        json_Marshal snapshot = Ok body ->
        url_Parse (diffURL cl force) = None ->
        http.exchange hc (network w) (diffRequest cl force body) = Ok resp ->
        http.StatusCode resp = 200%Z ->
        json_Decode (http.Body resp) = Ok result ->
        map_index result "data" = Some (any_map X) ->
        fst (GetDiff c snapshot force w) = Return (Ok X)).
Proof.
  intros Hc Hhc. split.
  - intros resp result X Hurl Hex Hst Hdec Hdata.
    now rewrite (GetSnapshot_data c w cl hc Hc Hhc Hurl resp result _
                   Hex Hst Hdec Hdata).
  - intros snapshot force body resp result X Hbody Hurl Hex Hst Hdec Hdata.
    now rewrite (GetDiff_data c w cl hc Hc Hhc snapshot force body Hbody Hurl
                   resp result _ Hex Hst Hdec Hdata).
Qed.

(** C3: for every response with status 200 whose body decodes as an object
    without a [data] key, GetSnapshot and GetDiff return the error that
    says so, never a success value. *)
Theorem missing_data_is_an_error `{RT : Runtime} c w cl hc :
  clients w !! c = Some cl ->
  HTTPClient cl = Some hc ->
  (forall resp result,
      url_Parse (snapshotURL cl) = None ->
      http.exchange hc (network w) (snapshotRequest cl) = Ok resp ->
      http.StatusCode resp = 200%Z ->
      json_Decode (http.Body resp) = Ok result ->
      map_index result "data" = None ->
      fst (GetSnapshot c w)
      = Return (Err (errorString
                       "snapshot response does not contain 'data' field")))
  /\ (forall snapshot force body resp result,
        json_Marshal snapshot = Ok body ->
        url_Parse (diffURL cl force) = None ->
        http.exchange hc (network w) (diffRequest cl force body) = Ok resp ->
        http.StatusCode resp = 200%Z ->
        json_Decode (http.Body resp) = Ok result ->
        map_index result "data" = None ->
        fst (GetDiff c snapshot force w)
        = Return (Err (errorString
                         "diff response does not contain 'data' field"))).
Proof.
  intros Hc Hhc. split.
  - intros resp result Hurl Hex Hst Hdec Hdata.
    now rewrite (GetSnapshot_no_data c w cl hc Hc Hhc Hurl resp result
                   Hex Hst Hdec Hdata).
  - intros snapshot force body resp result Hbody Hurl Hex Hst Hdec Hdata.
    now rewrite (GetDiff_no_data c w cl hc Hc Hhc snapshot force body Hbody
                   Hurl resp result Hex Hst Hdec Hdata).
Qed.

Lemma data_mapping_is_returned_witness :
  fst (GetSnapshot (RT := Stub.runtime Stub.healthy) 0
         (Stub.world Stub.healthy "http://base" "bt"))
  = Return (Ok (Some {[ "fields" := any_slice [] ]}))
  /\ fst (GetDiff (RT := Stub.runtime Stub.healthy) 0 None true
            (Stub.world Stub.healthy "http://target" "tt"))
     = Return (Ok (Some {[ "changes" := any_slice [] ]})).
Proof.
  split.
  - eapply (proj1 (data_mapping_is_returned (RT := Stub.runtime Stub.healthy)
                     0 (Stub.world Stub.healthy "http://base" "bt")
                     _ _ eq_refl eq_refl)); reflexivity.
  - eapply (proj2 (data_mapping_is_returned (RT := Stub.runtime Stub.healthy)
                     0 (Stub.world Stub.healthy "http://target" "tt")
                     _ _ eq_refl eq_refl)); reflexivity.
Defined.

Lemma missing_data_is_an_error_witness :
  fst (GetSnapshot (RT := Stub.runtime Stub.no_data) 0
         (Stub.world Stub.no_data "http://base" "bt"))
  = Return (Err (errorString "snapshot response does not contain 'data' field"))
  /\ fst (GetDiff (RT := Stub.runtime Stub.no_data) 0 None false
            (Stub.world Stub.no_data "http://base" "bt"))
     = Return (Err (errorString "diff response does not contain 'data' field")).
Proof.
  split.
  - eapply (proj1 (missing_data_is_an_error (RT := Stub.runtime Stub.no_data)
                     0 (Stub.world Stub.no_data "http://base" "bt")
                     _ _ eq_refl eq_refl)); reflexivity.
  - eapply (proj2 (missing_data_is_an_error (RT := Stub.runtime Stub.no_data)
                     0 (Stub.world Stub.no_data "http://base" "bt")
                     _ _ eq_refl eq_refl)); reflexivity.
Defined.

(** ** Status codes *)

Section Inversion.

Context {RT : Runtime}.

(** Unfolds an operation in a hypothesis about its result and splits on
    every test it makes. *)
Ltac invert H :=
  unfold GetSnapshot, GetDiff, ApplyDiff, bind, deref in H;
  match type of H with
  | context [clients ?w !! ?c] =>
      destruct (clients w !! c) eqn:?; [| discriminate H]
  end;
  cbv zeta in H;
  rewrite ?Sprintf_snapshotURL, ?Sprintf_diffURL, ?Sprintf_applyURL in H;
  unfold NewRequest, Do, assert_map, raise, ret in H;
  repeat case_match; simplify_eq;
  rewrite ?snapshotRequest_built, ?diffRequest_built, ?applyRequest_built in *.

Lemma status_tested (code expected : Z) :
  negb (code =? expected)%Z = false -> code = expected.
Proof. intros H. apply negb_false_iff in H. now apply Z.eqb_eq. Qed.

Lemma GetSnapshot_succeeded c w m w' :
  GetSnapshot c w = (Return (Ok m), w') ->
  exists cl hc resp,
    clients w !! c = Some cl /\ HTTPClient cl = Some hc
    /\ http.exchange hc (network w) (snapshotRequest cl) = Ok resp
    /\ http.StatusCode resp = 200%Z.
Proof.
  intros H. invert H.
  eauto 10 using status_tested.
Qed.

Lemma GetDiff_succeeded c snapshot force w m w' :
  GetDiff c snapshot force w = (Return (Ok m), w') ->
  exists cl hc body resp,
    clients w !! c = Some cl /\ HTTPClient cl = Some hc
    /\ json_Marshal snapshot = Ok body
    /\ http.exchange hc (network w) (diffRequest cl force body) = Ok resp
    /\ http.StatusCode resp = 200%Z.
Proof.
  intros H. invert H.
  eauto 10 using status_tested.
Qed.

Lemma ApplyDiff_succeeded c diff w w' :
  ApplyDiff c diff w = (Return None, w') ->
  exists cl hc body resp,
    clients w !! c = Some cl /\ HTTPClient cl = Some hc
    /\ json_Marshal diff = Ok body
    /\ http.exchange hc (network w) (applyRequest cl body) = Ok resp
    /\ http.StatusCode resp = 204%Z.
Proof.
  intros H. invert H.
  eauto 10 using status_tested.
Qed.

End Inversion.

(** C4: GetSnapshot and GetDiff succeed only when the response status is
    exactly 200 and ApplyDiff only when it is exactly 204; a response with
    any other status makes the operation return an error. *)
Theorem success_needs_exact_status `{RT : Runtime} c w :
  (forall m w',
      GetSnapshot c w = (Return (Ok m), w') ->
      exists cl hc resp,
        clients w !! c = Some cl /\ HTTPClient cl = Some hc
        /\ http.exchange hc (network w) (snapshotRequest cl) = Ok resp
        /\ http.StatusCode resp = 200%Z)
  /\ (forall snapshot force m w',
        GetDiff c snapshot force w = (Return (Ok m), w') ->
        exists cl hc body resp,
          clients w !! c = Some cl /\ HTTPClient cl = Some hc
          /\ json_Marshal snapshot = Ok body
          /\ http.exchange hc (network w) (diffRequest cl force body) = Ok resp
          /\ http.StatusCode resp = 200%Z)
  /\ (forall diff w',
        ApplyDiff c diff w = (Return None, w') ->
        exists cl hc body resp,
          clients w !! c = Some cl /\ HTTPClient cl = Some hc
          /\ json_Marshal diff = Ok body
          /\ http.exchange hc (network w) (applyRequest cl body) = Ok resp
          /\ http.StatusCode resp = 204%Z)
  /\ (forall cl hc resp,
        clients w !! c = Some cl -> HTTPClient cl = Some hc ->
        url_Parse (snapshotURL cl) = None ->
        http.exchange hc (network w) (snapshotRequest cl) = Ok resp ->
        http.StatusCode resp <> 200%Z ->
        exists err, fst (GetSnapshot c w) = Return (Err err))
  /\ (forall cl hc snapshot force body resp,
        clients w !! c = Some cl -> HTTPClient cl = Some hc ->
        json_Marshal snapshot = Ok body ->
        url_Parse (diffURL cl force) = None ->
        http.exchange hc (network w) (diffRequest cl force body) = Ok resp ->
        http.StatusCode resp <> 200%Z ->
        exists err, fst (GetDiff c snapshot force w) = Return (Err err))
  /\ (forall cl hc diff body resp,
        clients w !! c = Some cl -> HTTPClient cl = Some hc ->
        json_Marshal diff = Ok body ->
        url_Parse (applyURL cl) = None ->
        http.exchange hc (network w) (applyRequest cl body) = Ok resp ->
        http.StatusCode resp <> 204%Z ->
        exists err, fst (ApplyDiff c diff w) = Return (Some err)).
Proof.
  repeat split.
  - intros m w'. apply GetSnapshot_succeeded.
  - intros snapshot force m w'. apply GetDiff_succeeded.
  - intros diff w'. apply ApplyDiff_succeeded.
  - intros cl hc resp Hc Hhc Hurl Hex Hst.
    rewrite (GetSnapshot_rejected c w cl hc Hc Hhc Hurl resp Hex Hst). eauto.
  - intros cl hc snapshot force body resp Hc Hhc Hbody Hurl Hex Hst.
    rewrite (GetDiff_rejected c w cl hc Hc Hhc snapshot force body Hbody Hurl
               resp Hex Hst).
    eauto.
  - intros cl hc diff body resp Hc Hhc Hbody Hurl Hex Hst.
    rewrite (ApplyDiff_rejected c w cl hc Hc Hhc diff body Hbody Hurl
               resp Hex Hst).
    eauto.
Qed.

Lemma success_needs_exact_status_witness :
  (exists resp,
      http.exchange (Stub.server Stub.healthy) []
        (snapshotRequest (directusClient (RT := Stub.runtime Stub.healthy)
                            "http://base" "bt"))
      = Ok resp
      /\ http.StatusCode resp = 200%Z)
  /\ (exists err,
        fst (GetSnapshot (RT := Stub.runtime Stub.failing) 0
               (Stub.world Stub.failing "http://base" "bt"))
        = Return (Err err))
  /\ (exists err,
        fst (GetDiff (RT := Stub.runtime Stub.failing) 0 None false
               (Stub.world Stub.failing "http://base" "bt"))
        = Return (Err err))
  /\ (exists err,
        fst (ApplyDiff (RT := Stub.runtime Stub.failing) 0 None
               (Stub.world Stub.failing "http://base" "bt"))
        = Return (Some err)).
Proof.
  pose proof (success_needs_exact_status (RT := Stub.runtime Stub.healthy)
                0 (Stub.world Stub.healthy "http://base" "bt"))
    as (Hsnapshot & _).
  pose proof (success_needs_exact_status (RT := Stub.runtime Stub.failing)
                0 (Stub.world Stub.failing "http://base" "bt"))
    as (_ & _ & _ & Hs & Hd & Ha).
  split; [| split; [| split]].
  - destruct (Hsnapshot _ _ eq_refl) as (cl & hc & resp & Hc & Hhc & Hex & Hst).
    injection Hc as <-. injection Hhc as <-. now exists resp.
  - eapply Hs; [reflexivity | reflexivity | reflexivity | reflexivity |].
    simpl. lia.
  - eapply Hd; [reflexivity | reflexivity | reflexivity | reflexivity
               | reflexivity |].
    simpl. lia.
  - eapply Ha; [reflexivity | reflexivity | reflexivity | reflexivity
               | reflexivity |].
    simpl. lia.
Defined.

(** C5: for every response whose status is not the one the operation
    expects, the error returned reads
    ["<op> request failed with status <code>: <body>"], with the status
    code in decimal and the bytes read from the response body unchanged. *)
Theorem rejection_carries_status_and_body `{RT : Runtime} c w cl hc :
  clients w !! c = Some cl ->
  HTTPClient cl = Some hc ->
  (forall resp,
      url_Parse (snapshotURL cl) = None ->
      http.exchange hc (network w) (snapshotRequest cl) = Ok resp ->
      http.StatusCode resp <> 200%Z ->
      exists err,
        fst (GetSnapshot c w) = Return (Err err)
        /\ Error err = "snapshot request failed with status "
                       +:+ fmt.Itoa (http.StatusCode resp) +:+ ": "
                       +:+ io.content (http.Body resp))
  /\ (forall snapshot force body resp,
        json_Marshal snapshot = Ok body ->
        url_Parse (diffURL cl force) = None ->
        http.exchange hc (network w) (diffRequest cl force body) = Ok resp ->
        http.StatusCode resp <> 200%Z ->
        exists err,
          fst (GetDiff c snapshot force w) = Return (Err err)
          /\ Error err = "diff request failed with status "
                         +:+ fmt.Itoa (http.StatusCode resp) +:+ ": "
                         +:+ io.content (http.Body resp))
  /\ (forall diff body resp,
        json_Marshal diff = Ok body ->
        url_Parse (applyURL cl) = None ->
        http.exchange hc (network w) (applyRequest cl body) = Ok resp ->
        http.StatusCode resp <> 204%Z ->
        exists err,
          fst (ApplyDiff c diff w) = Return (Some err)
          /\ Error err = "apply request failed with status "
                         +:+ fmt.Itoa (http.StatusCode resp) +:+ ": "
                         +:+ io.content (http.Body resp)).
Proof.
  intros Hc Hhc. repeat split.
  - intros resp Hurl Hex Hst.
    rewrite (GetSnapshot_rejected c w cl hc Hc Hhc Hurl resp Hex Hst).
    eexists. split; reflexivity.
  - intros snapshot force body resp Hbody Hurl Hex Hst.
    rewrite (GetDiff_rejected c w cl hc Hc Hhc snapshot force body Hbody Hurl
               resp Hex Hst).
    eexists. split; reflexivity.
  - intros diff body resp Hbody Hurl Hex Hst.
    rewrite (ApplyDiff_rejected c w cl hc Hc Hhc diff body Hbody Hurl
               resp Hex Hst).
    eexists. split; reflexivity.
Qed.

Lemma rejection_carries_status_and_body_witness :
  let RT := Stub.runtime Stub.failing in
  let w := Stub.world Stub.failing "http://base" "bt" in
  (exists err, fst (GetSnapshot 0 w) = Return (Err err)
               /\ Error err
                  = "snapshot request failed with status 500: internal error")
  /\ (exists err, fst (GetDiff 0 None false w) = Return (Err err)
                  /\ Error err
                     = "diff request failed with status 500: internal error")
  /\ (exists err, fst (ApplyDiff 0 None w) = Return (Some err)
                  /\ Error err
                     = "apply request failed with status 500: internal error").
Proof.
  cbv zeta.
  pose proof (rejection_carries_status_and_body
                (RT := Stub.runtime Stub.failing)
                0 (Stub.world Stub.failing "http://base" "bt") _ _
                eq_refl eq_refl)
    as (Hs & Hd & Ha).
  pose (resp := {| http.StatusCode := 500;
                   http.Body := {| io.content := "internal error";
                                   io.readErr := None |} |}).
  assert (Hst200 : http.StatusCode resp <> 200%Z) by discriminate.
  assert (Hst204 : http.StatusCode resp <> 204%Z) by discriminate.
  split; [| split].
  - destruct (Hs resp eq_refl eq_refl Hst200) as (err & Hret & Htext).
    exists err. split; [exact Hret | rewrite Htext; reflexivity].
  - destruct (Hd None false _ resp eq_refl eq_refl eq_refl Hst200)
      as (err & Hret & Htext).
    exists err. split; [exact Hret | rewrite Htext; reflexivity].
  - destruct (Ha None _ resp eq_refl eq_refl eq_refl Hst204)
      as (err & Hret & Htext).
    exists err. split; [exact Hret | rewrite Htext; reflexivity].
Defined.

(** ** The orchestrator *)

Section Orchestrator.

Context {RT : Runtime}.
Variables (baseURL baseToken targetURL targetToken : string) (force : bool).
Variable w : World.

Local Abbreviation base := (length (clients w)).
Local Abbreviation target := (S (length (clients w))).
Local Abbreviation w0 := (started w baseURL baseToken targetURL targetToken).
Local Abbreviation baseClient := (directusClient baseURL baseToken).
Local Abbreviation targetClient := (directusClient targetURL targetToken).

Lemma started_base : clients w0 !! base = Some baseClient.
Proof.
  unfold started. simpl. rewrite <- app_assoc.
  rewrite lookup_app_r by lia. now rewrite Nat.sub_diag.
Qed.

Lemma started_target : clients w0 !! target = Some targetClient.
Proof.
  unfold started. simpl.
  rewrite lookup_app_r by (rewrite length_app; simpl; lia).
  rewrite length_app. simpl.
  now replace (S (length (clients w)) - (length (clients w) + 1)) with 0 by lia.
Qed.

(** The first step leaves the clients and the output alone and sends at
    most the snapshot request. *)
Lemma snapshot_step :
  let w1 := snd (GetSnapshot base w0) in
  clients w1 = clients w0 /\ stdout w1 = stdout w0
  /\ (network w1 = network w
      \/ network w1 = (network w ++ [snapshotRequest baseClient])%list).
Proof.
  cbv zeta.
  destruct (GetSnapshot_frame base w0) as [-> | (cl & Hc & ->)].
  - auto.
  - rewrite started_base in Hc. injection Hc as <-. auto.
Qed.

(** So does the second, with the diff request. *)
Lemma diff_step snapshot w1 :
  clients w1 = clients w0 ->
  let w2 := snd (GetDiff target snapshot force (diffing w1)) in
  clients w2 = clients w0 /\ stdout w2 = stdout (diffing w1)
  /\ (network w2 = network w1
      \/ exists body,
           json_Marshal snapshot = Ok body
           /\ network w2 = (network w1 ++ [diffRequest targetClient force body])%list).
Proof.
  intros Hclients. cbv zeta.
  destruct (GetDiff_frame target snapshot force (diffing w1))
    as [-> | (cl & body & Hc & Hbody & ->)].
  - auto.
  - simpl in Hc. rewrite Hclients, started_target in Hc. injection Hc as <-.
    simpl. eauto 6.
Qed.

(** And the third, with the apply request. *)
Lemma apply_step diff w2 :
  clients w2 = clients w0 ->
  let w3 := snd (ApplyDiff target diff (applying w2)) in
  clients w3 = clients w0 /\ stdout w3 = stdout (applying w2)
  /\ (network w3 = network w2
      \/ exists body,
           json_Marshal diff = Ok body
           /\ network w3 = (network w2 ++ [applyRequest targetClient body])%list).
Proof.
  intros Hclients. cbv zeta.
  destruct (ApplyDiff_frame target diff (applying w2))
    as [-> | (cl & body & Hc & Hbody & ->)].
  - auto.
  - simpl in Hc. rewrite Hclients, started_target in Hc. injection Hc as <-.
    simpl. eauto 6.
Qed.

End Orchestrator.

(** C2: Migrate is fail-fast.  When GetSnapshot returns an error, Migrate
    ends in the very world GetSnapshot left: the request log holds at most
    the snapshot request on top of what it held, so no diff and no apply
    request was issued, and nothing more is printed.  When GetDiff returns
    an error, Migrate ends in the world GetDiff left, which holds at most
    the diff request more, so no apply request was issued.  When ApplyDiff
    returns an error, Migrate ends in the world ApplyDiff left. *)
Theorem Migrate_fail_fast `{RT : Runtime}
    baseURL baseToken targetURL targetToken force w :
  let base := length (clients w) in
  let target := S (length (clients w)) in
  let w0 := started w baseURL baseToken targetURL targetToken in
  let migrate := Migrate baseURL baseToken targetURL targetToken force w in
  (forall err w1,
      GetSnapshot base w0 = (Return (Err err), w1) ->
      snd migrate = w1
      /\ stdout w1 = stdout w0
      /\ (network w1 = network w
          \/ network w1
             = (network w
                  ++ [snapshotRequest (directusClient baseURL baseToken)])%list))
  /\ (forall snapshot w1 err w2,
        GetSnapshot base w0 = (Return (Ok snapshot), w1) ->
        GetDiff target snapshot force (diffing w1) = (Return (Err err), w2) ->
        snd migrate = w2
        /\ stdout w2 = stdout (diffing w1)
        /\ (network w2 = network w1
            \/ exists body,
                 network w2
                 = (network w1
                      ++ [diffRequest (directusClient targetURL targetToken)
                            force body])%list))
  /\ (forall snapshot w1 diff w2 err w3,
        GetSnapshot base w0 = (Return (Ok snapshot), w1) ->
        GetDiff target snapshot force (diffing w1) = (Return (Ok diff), w2) ->
        ApplyDiff target diff (applying w2) = (Return (Some err), w3) ->
        snd migrate = w3 /\ stdout w3 = stdout (applying w2)).
Proof.
  cbv zeta. split; [| split].
  - intros err w1 H.
    rewrite (Migrate_snapshot_failed _ _ _ _ force w err w1 H).
    pose proof (snapshot_step baseURL baseToken targetURL targetToken w)
      as (_ & Hout & Hnet).
    rewrite H in Hout, Hnet. auto.
  - intros snapshot w1 err w2 H1 H2.
    rewrite (Migrate_diff_failed _ _ _ _ force w snapshot w1 H1 err w2 H2).
    pose proof (snapshot_step baseURL baseToken targetURL targetToken w)
      as (Hcl & _ & _).
    rewrite H1 in Hcl.
    pose proof (diff_step baseURL baseToken targetURL targetToken force w
                  snapshot w1 Hcl) as (_ & Hout & Hnet).
    rewrite H2 in Hout, Hnet. split; [reflexivity |]. split; [exact Hout |].
    destruct Hnet as [Hnet | (body & _ & Hnet)]; eauto.
  - intros snapshot w1 diff w2 err w3 H1 H2 H3.
    rewrite (Migrate_applies _ _ _ _ force w snapshot w1 H1 diff w2 H2), H3.
    pose proof (snapshot_step baseURL baseToken targetURL targetToken w)
      as (Hcl & _ & _).
    rewrite H1 in Hcl.
    pose proof (diff_step baseURL baseToken targetURL targetToken force w
                  snapshot w1 Hcl) as (Hcl2 & _ & _).
    rewrite H2 in Hcl2.
    pose proof (apply_step baseURL baseToken targetURL targetToken w
                  diff w2 Hcl2) as (_ & Hout & _).
    rewrite H3 in Hout. auto.
Qed.

Lemma Migrate_fail_fast_witness :
  (let run := Migrate (RT := Stub.runtime Stub.failing)
                "http://base" "bt" "http://target" "tt" false Stub.empty in
   Stub.urls (snd run) = ["http://base/schema/snapshot?access_token=bt"]
   /\ stdout (snd run) = ["Retrieving snapshot from base project..."])
  /\ (let run := Migrate (RT := Stub.runtime Stub.unreachable_target)
                   "http://base" "bt" "http://target" "tt" true Stub.empty in
      Stub.urls (snd run)
      = ["http://base/schema/snapshot?access_token=bt";
         "http://target/schema/diff?access_token=tt&force=true"]
      /\ stdout (snd run)
         = ["Retrieving snapshot from base project...";
            "Snapshot retrieved successfully.";
            "Retrieving diff from target project..."])
  /\ (let run := Migrate (RT := Stub.runtime Stub.conflict)
                   "http://base" "bt" "http://target" "tt" false Stub.empty in
      Stub.urls (snd run)
      = ["http://base/schema/snapshot?access_token=bt";
         "http://target/schema/diff?access_token=tt";
         "http://target/schema/apply?access_token=tt"]
      /\ stdout (snd run)
         = ["Retrieving snapshot from base project...";
            "Snapshot retrieved successfully.";
            "Retrieving diff from target project...";
            "Diff retrieved successfully.";
            "Applying diff to target project..."]).
Proof.
  cbv zeta. split; [| split].
  - pose proof (Migrate_fail_fast (RT := Stub.runtime Stub.failing)
                  "http://base" "bt" "http://target" "tt" false Stub.empty)
      as (H & _).
    cbv zeta in H.
    destruct (H (errorString
                   "snapshot request failed with status 500: internal error")
                (sent (started (RT := Stub.runtime Stub.failing) Stub.empty
                         "http://base" "bt" "http://target" "tt")
                      (snapshotRequest
                         (directusClient (RT := Stub.runtime Stub.failing)
                            "http://base" "bt")))
                eq_refl) as (-> & _).
    split; reflexivity.
  - pose proof (Migrate_fail_fast (RT := Stub.runtime Stub.unreachable_target)
                  "http://base" "bt" "http://target" "tt" true Stub.empty)
      as (_ & H & _).
    cbv zeta in H.
    pose (RT := Stub.runtime Stub.unreachable_target).
    pose (w1 := sent (started Stub.empty "http://base" "bt" "http://target" "tt")
                     (snapshotRequest (directusClient "http://base" "bt"))).
    destruct (H (Some {[ "fields" := any_slice [] ]}) w1
                (wrap "failed to execute diff request: "
                   (errorString "dial tcp: connection refused"))
                (sent (diffing w1)
                      (diffRequest (directusClient "http://target" "tt")
                         true "{fields}"))
                eq_refl eq_refl) as (-> & _).
    split; reflexivity.
  - pose proof (Migrate_fail_fast (RT := Stub.runtime Stub.conflict)
                  "http://base" "bt" "http://target" "tt" false Stub.empty)
      as (_ & _ & H).
    cbv zeta in H.
    pose (RT := Stub.runtime Stub.conflict).
    pose (w1 := sent (started Stub.empty "http://base" "bt" "http://target" "tt")
                     (snapshotRequest (directusClient "http://base" "bt"))).
    pose (w2 := sent (diffing w1)
                     (diffRequest (directusClient "http://target" "tt")
                        false "{fields}")).
    destruct (H (Some {[ "fields" := any_slice [] ]}) w1
                (Some {[ "changes" := any_slice [] ]}) w2
                (errorString "apply request failed with status 400: conflict")
                (sent (applying w2)
                      (applyRequest (directusClient "http://target" "tt")
                         "{changes}"))
                eq_refl eq_refl eq_refl) as (-> & _).
    split; reflexivity.
Defined.

(** C7: every failing execution of Migrate returns the failing step's
    error under exactly one context line.  When GetSnapshot, GetDiff or
    ApplyDiff returns an error [cause], Migrate returns, in the world that
    step left, the error whose text is ["failed to get snapshot: "],
    ["failed to get diff: "] or ["failed to apply diff: "] followed by the
    text of [cause], and which wraps [cause] itself.  Conversely every
    error Migrate returns is of this form for the step that failed: its
    text is the context, [": "] and the text of the client's error, and
    unwrapping it gives back the client's error, with the status code and
    body text it carries. *)
Theorem Migrate_error_wraps_cause `{RT : Runtime}
    baseURL baseToken targetURL targetToken force w :
  let base := length (clients w) in
  let target := S (length (clients w)) in
  let w0 := started w baseURL baseToken targetURL targetToken in
  let migrate := Migrate baseURL baseToken targetURL targetToken force w in
  (forall cause w1,
      GetSnapshot base w0 = (Return (Err cause), w1) ->
      migrate
      = (Return (Some (wrapError ("failed to get snapshot: " +:+ Error cause)
                         cause)), w1))
  /\ (forall snapshot w1 cause w2,
        GetSnapshot base w0 = (Return (Ok snapshot), w1) ->
        GetDiff target snapshot force (diffing w1) = (Return (Err cause), w2) ->
        migrate
        = (Return (Some (wrapError ("failed to get diff: " +:+ Error cause)
                           cause)), w2))
  /\ (forall snapshot w1 diff w2 cause w3,
        GetSnapshot base w0 = (Return (Ok snapshot), w1) ->
        GetDiff target snapshot force (diffing w1) = (Return (Ok diff), w2) ->
        ApplyDiff target diff (applying w2) = (Return (Some cause), w3) ->
        migrate
        = (Return (Some (wrapError ("failed to apply diff: " +:+ Error cause)
                           cause)), w3))
  /\ (forall e w',
        migrate = (Return (Some e), w') ->
        exists context cause,
          Unwrap e = Some cause
          /\ Error e = context +:+ ": " +:+ Error cause
          /\ ((context = "failed to get snapshot"
               /\ fst (GetSnapshot base w0) = Return (Err cause))
              \/ (context = "failed to get diff"
                  /\ exists snapshot w1,
                       GetSnapshot base w0 = (Return (Ok snapshot), w1)
                       /\ fst (GetDiff target snapshot force (diffing w1))
                          = Return (Err cause))
              \/ (context = "failed to apply diff"
                  /\ exists snapshot w1 diff w2,
                       GetSnapshot base w0 = (Return (Ok snapshot), w1)
                       /\ GetDiff target snapshot force (diffing w1)
                          = (Return (Ok diff), w2)
                       /\ fst (ApplyDiff target diff (applying w2))
                          = Return (Some cause)))).
Proof.
  cbv zeta. split; [| split; [| split]].
  - intros cause w1 H1.
    exact (Migrate_snapshot_failed _ _ _ _ force w cause w1 H1).
  - intros snapshot w1 cause w2 H1 H2.
    exact (Migrate_diff_failed _ _ _ _ force w snapshot w1 H1 cause w2 H2).
  - intros snapshot w1 diff w2 cause w3 H1 H2 H3.
    now rewrite (Migrate_applies _ _ _ _ force w snapshot w1 H1 diff w2 H2), H3.
  - intros e w' H.
    destruct (GetSnapshot (length (clients w))
                (started w baseURL baseToken targetURL targetToken))
      as [[[snapshot|err]|p] w1] eqn:H1.
    + destruct (GetDiff (S (length (clients w))) snapshot force (diffing w1))
        as [[[diff|err]|p] w2] eqn:H2.
      * rewrite (Migrate_applies _ _ _ _ force w snapshot w1 H1 diff w2 H2)
          in H.
        destruct (ApplyDiff (S (length (clients w))) diff (applying w2))
          as [[[err|]|p] w3] eqn:H3; [| discriminate H | discriminate H].
        injection H as <- <-.
        exists "failed to apply diff", err.
        split; [reflexivity |]. split; [reflexivity |].
        right. right. split; [reflexivity |].
        exists snapshot, w1, diff, w2. now rewrite H3.
      * rewrite (Migrate_diff_failed _ _ _ _ force w snapshot w1 H1 err w2 H2)
          in H.
        injection H as <- <-.
        exists "failed to get diff", err.
        split; [reflexivity |]. split; [reflexivity |].
        right. left. split; [reflexivity |].
        exists snapshot, w1. now rewrite H2.
      * rewrite (Migrate_diff_panics _ _ _ _ force w snapshot w1 H1 p w2 H2)
          in H.
        discriminate H.
    + rewrite (Migrate_snapshot_failed _ _ _ _ force w err w1 H1) in H.
      injection H as <- <-.
      exists "failed to get snapshot", err.
      split; [reflexivity |]. split; [reflexivity |].
      left. split; reflexivity.
    + rewrite (Migrate_snapshot_panics _ _ _ _ force w p w1 H1) in H.
      discriminate H.
Qed.

Lemma Migrate_error_wraps_cause_witness :
  (exists e cause,
      fst (Migrate (RT := Stub.runtime Stub.failing)
             "http://base" "bt" "http://target" "tt" false Stub.empty)
      = Return (Some e)
      /\ Unwrap e = Some cause
      /\ Error cause
         = "snapshot request failed with status 500: internal error"
      /\ Error e = "failed to get snapshot: snapshot request failed with status 500: internal error")
  /\ (exists e cause,
        fst (Migrate (RT := Stub.runtime Stub.unreachable_target)
               "http://base" "bt" "http://target" "tt" true Stub.empty)
        = Return (Some e)
        /\ Unwrap e = Some cause
        /\ Error cause
           = "failed to execute diff request: dial tcp: connection refused"
        /\ Error e = "failed to get diff: failed to execute diff request: dial tcp: connection refused")
  /\ (exists e cause,
        fst (Migrate (RT := Stub.runtime Stub.conflict)
               "http://base" "bt" "http://target" "tt" false Stub.empty)
        = Return (Some e)
        /\ Unwrap e = Some cause
        /\ Error cause = "apply request failed with status 400: conflict"
        /\ Error e = "failed to apply diff: apply request failed with status 400: conflict").
Proof.
  split; [| split].
  - pose (RT := Stub.runtime Stub.failing).
    pose (cause := errorString
                     "snapshot request failed with status 500: internal error").
    pose (w1 := sent (started Stub.empty "http://base" "bt" "http://target" "tt")
                     (snapshotRequest (directusClient "http://base" "bt"))).
    destruct (Migrate_error_wraps_cause (RT := Stub.runtime Stub.failing)
                "http://base" "bt" "http://target" "tt" false Stub.empty)
      as (Hforward & _ & _ & Hback).
    cbv zeta in Hforward, Hback.
    pose proof (Hforward cause w1 eq_refl) as Hrun.
    destruct (Hback _ _ Hrun) as (context & cause' & Hunwrap & _ & _).
    rewrite Hrun. eexists _, cause'. split; [reflexivity |].
    split; [exact Hunwrap |]. injection Hunwrap as <-. split; reflexivity.
  - pose (RT := Stub.runtime Stub.unreachable_target).
    pose (cause := wrap "failed to execute diff request: "
                     (errorString "dial tcp: connection refused")).
    pose (w1 := sent (started Stub.empty "http://base" "bt" "http://target" "tt")
                     (snapshotRequest (directusClient "http://base" "bt"))).
    pose (w2 := sent (diffing w1)
                     (diffRequest (directusClient "http://target" "tt")
                        true "{fields}")).
    destruct (Migrate_error_wraps_cause
                (RT := Stub.runtime Stub.unreachable_target)
                "http://base" "bt" "http://target" "tt" true Stub.empty)
      as (_ & Hforward & _ & Hback).
    cbv zeta in Hforward, Hback.
    pose proof (Hforward (Some {[ "fields" := any_slice [] ]}) w1 cause w2
                  eq_refl eq_refl) as Hrun.
    destruct (Hback _ _ Hrun) as (context & cause' & Hunwrap & _ & _).
    rewrite Hrun. eexists _, cause'. split; [reflexivity |].
    split; [exact Hunwrap |]. injection Hunwrap as <-. split; reflexivity.
  - pose (RT := Stub.runtime Stub.conflict).
    pose (cause := errorString
                     "apply request failed with status 400: conflict").
    pose (w1 := sent (started Stub.empty "http://base" "bt" "http://target" "tt")
                     (snapshotRequest (directusClient "http://base" "bt"))).
    pose (w2 := sent (diffing w1)
                     (diffRequest (directusClient "http://target" "tt")
                        false "{fields}")).
    pose (w3 := sent (applying w2)
                     (applyRequest (directusClient "http://target" "tt")
                        "{changes}")).
    destruct (Migrate_error_wraps_cause (RT := Stub.runtime Stub.conflict)
                "http://base" "bt" "http://target" "tt" false Stub.empty)
      as (_ & _ & Hforward & Hback).
    cbv zeta in Hforward, Hback.
    pose proof (Hforward (Some {[ "fields" := any_slice [] ]}) w1
                  (Some {[ "changes" := any_slice [] ]}) w2 cause w3
                  eq_refl eq_refl eq_refl) as Hrun.
    destruct (Hback _ _ Hrun) as (context & cause' & Hunwrap & _ & _).
    rewrite Hrun. eexists _, cause'. split; [reflexivity |].
    split; [exact Hunwrap |]. injection Hunwrap as <-. split; reflexivity.
Defined.

(** C8: Migrate forwards the documents untouched.  When the base answers
    the snapshot request with 200 and an envelope whose [data] is the
    mapping [snapshot], the next request is the diff request to the target
    and its body is [json.Marshal snapshot]; when the target answers that
    with 200 and an envelope whose [data] is the mapping [diff], the last
    request is the apply request and its body is [json.Marshal diff]. *)
Theorem Migrate_forwards_documents `{RT : Runtime}
    baseURL baseToken targetURL targetToken force w
    resp1 result1 snapshot body1 :
  let baseClient := directusClient baseURL baseToken in
  let targetClient := directusClient targetURL targetToken in
  let migrate := Migrate baseURL baseToken targetURL targetToken force w in
  url_Parse (snapshotURL baseClient) = None ->
  http.exchange http_DefaultClient (network w) (snapshotRequest baseClient)
  = Ok resp1 ->
  http.StatusCode resp1 = 200%Z ->
  json_Decode (http.Body resp1) = Ok result1 ->
  map_index result1 "data" = Some (any_map snapshot) ->
  json_Marshal snapshot = Ok body1 ->
  url_Parse (diffURL targetClient force) = None ->
  (exists rest,
      network (snd migrate)
      = (network w
           ++ [snapshotRequest baseClient;
               diffRequest targetClient force body1] ++ rest)%list)
  /\ (forall resp2 result2 diff body2,
        http.exchange http_DefaultClient
          (network w ++ [snapshotRequest baseClient])%list
          (diffRequest targetClient force body1)
        = Ok resp2 ->
        http.StatusCode resp2 = 200%Z ->
        json_Decode (http.Body resp2) = Ok result2 ->
        map_index result2 "data" = Some (any_map diff) ->
        json_Marshal diff = Ok body2 ->
        url_Parse (applyURL targetClient) = None ->
        network (snd migrate)
        = (network w
             ++ [snapshotRequest baseClient;
                 diffRequest targetClient force body1;
                 applyRequest targetClient body2])%list).
Proof.
  cbv zeta. intros Hurl1 Hex1 Hst1 Hdec1 Hdata1 Hbody1 Hurl2.
  set (w0 := started w baseURL baseToken targetURL targetToken).
  set (w1 := sent w0 (snapshotRequest (directusClient baseURL baseToken))).
  set (w2 := sent (diffing w1)
               (diffRequest (directusClient targetURL targetToken) force body1)).
  assert (H1 : GetSnapshot (length (clients w)) w0 = (Return (Ok snapshot), w1)).
  { apply (GetSnapshot_data _ w0 _ http_DefaultClient
             (started_base _ _ _ _ w) eq_refl Hurl1 resp1 result1
             (any_map snapshot) Hex1 Hst1 Hdec1 Hdata1). }
  assert (Hc2 : clients (diffing w1) !! S (length (clients w))
                = Some (directusClient targetURL targetToken))
    by apply started_target.
  assert (Hnet2 : network w2
                  = (network w
                       ++ [snapshotRequest (directusClient baseURL baseToken);
                           diffRequest (directusClient targetURL targetToken)
                             force body1])%list)
    by (simpl; now rewrite <- app_assoc).
  split.
  - destruct (GetDiff_sends _ (diffing w1) _ http_DefaultClient Hc2 eq_refl
                snapshot force body1 Hbody1 Hurl2) as [[[diff|err]|p] H2].
    + rewrite (Migrate_applies _ _ _ _ force w snapshot w1 H1 diff w2 H2).
      pose proof (apply_step baseURL baseToken targetURL targetToken w diff w2
                    eq_refl) as (_ & _ & Hnet).
      destruct (ApplyDiff (S (length (clients w))) diff (applying w2))
        as [[[err|]|p] w3]; unfold printed; cbn [snd network] in Hnet |- *;
        (destruct Hnet as [-> | (body & _ & ->)];
         [ exists []
         | exists [applyRequest (directusClient targetURL targetToken) body] ];
         rewrite Hnet2, <- ?app_assoc; reflexivity).
    + rewrite (Migrate_diff_failed _ _ _ _ force w snapshot w1 H1 err w2 H2).
      exists []. exact Hnet2.
    + rewrite (Migrate_diff_panics _ _ _ _ force w snapshot w1 H1 p w2 H2).
      exists []. exact Hnet2.
  - intros resp2 result2 diff body2 Hex2 Hst2 Hdec2 Hdata2 Hbody2 Hurl3.
    assert (H2 : GetDiff (S (length (clients w))) snapshot force (diffing w1)
                 = (Return (Ok diff), w2)).
    { apply (GetDiff_data _ (diffing w1) _ http_DefaultClient Hc2 eq_refl
               snapshot force body1 Hbody1 Hurl2 resp2 result2
               (any_map diff) Hex2 Hst2 Hdec2 Hdata2). }
    rewrite (Migrate_applies _ _ _ _ force w snapshot w1 H1 diff w2 H2).
    assert (Hc3 : clients (applying w2) !! S (length (clients w))
                  = Some (directusClient targetURL targetToken))
      by apply started_target.
    destruct (ApplyDiff_sends _ (applying w2) _ http_DefaultClient Hc3 eq_refl
                diff body2 Hbody2 Hurl3) as [[[err|]|p] ->];
      simpl; rewrite <- !app_assoc; reflexivity.
Qed.

Lemma Migrate_forwards_documents_witness :
  map (fun req => (http.URL req, http.ReqBody req))
      (network (snd (Migrate (RT := Stub.runtime Stub.healthy)
                       "http://base" "bt" "http://target" "tt" false
                       Stub.empty)))
  = [ ("http://base/schema/snapshot?access_token=bt", None);
      ("http://target/schema/diff?access_token=tt", Some "{fields}");
      ("http://target/schema/apply?access_token=tt", Some "{changes}") ].
Proof.
  pose (envelope text :=
          {| http.StatusCode := 200;
             http.Body := {| io.content := text; io.readErr := None |} |}).
  destruct (Migrate_forwards_documents (RT := Stub.runtime Stub.healthy)
              "http://base" "bt" "http://target" "tt" false Stub.empty
              (envelope "snapshot-envelope")
              (Some {[ "data" := Stub.document "fields" ]})
              (Some {[ "fields" := any_slice [] ]}) "{fields}"
              eq_refl eq_refl eq_refl eq_refl eq_refl eq_refl eq_refl)
    as (_ & Hall).
  rewrite (Hall (envelope "diff-envelope")
             (Some {[ "data" := Stub.document "changes" ]})
             (Some {[ "changes" := any_slice [] ]}) "{changes}"
             eq_refl eq_refl eq_refl eq_refl eq_refl eq_refl).
  reflexivity.
Defined.

(** ** The force flag *)

Lemma prefix_before (c : ascii) (r q x : string) :
  mentions c q = false ->
  String.prefix q (x +:+ String c r) = String.prefix q x.
Proof.
  revert q. induction x as [|a x IH]; intros [|p q] Hq; try reflexivity.
  - simpl in Hq. apply orb_false_elim in Hq as [Hp _].
    apply Ascii.eqb_neq in Hp.
    change (String.prefix (String p q) (String c r) = false).
    simpl. now destruct (ascii_dec p c).
  - simpl in Hq. apply orb_false_elim in Hq as [_ Hq].
    rewrite append_cons. simpl. destruct (ascii_dec p a); [| reflexivity].
    now apply IH.
Qed.

(** A text in which the first byte of the pattern does not occur holds no
    occurrence, and none starts in it. *)
Lemma occurrences_skip (p : ascii) (q x y : string) :
  mentions p x = false ->
  occurrences (String p q) (x +:+ y) = occurrences (String p q) y.
Proof.
  induction x as [|a x IH]; intros Hx; [reflexivity |].
  simpl in Hx. apply orb_false_elim in Hx as [Ha Hx].
  apply Ascii.eqb_neq in Ha.
  rewrite append_cons. simpl. destruct (ascii_dec p a); [congruence |].
  now apply IH.
Qed.

(** No occurrence straddles a seam whose right side starts with a byte
    that the pattern only has, if at all, in first position. *)
Lemma occurrences_app (p : ascii) (q x y : string) :
  y = "" \/ (exists c r, y = String c r /\ mentions c q = false) ->
  occurrences (String p q) (x +:+ y)
  = occurrences (String p q) x + occurrences (String p q) y.
Proof.
  intros Hy. induction x as [|a x IH]; [reflexivity |].
  rewrite append_cons. simpl. rewrite IH.
  destruct (ascii_dec p a); [| reflexivity].
  destruct Hy as [-> | (c & r & -> & Hc)].
  - now rewrite append_nil_r, Nat.add_assoc.
  - now rewrite (prefix_before c r q x Hc), Nat.add_assoc.
Qed.

Lemma force_flag_count (address token : string) :
  occurrences "&force=true" address = 0 ->
  occurrences "&force=true" token = 0 ->
  occurrences "&force=true"
    (address +:+ "/schema/diff?access_token=" +:+ token +:+ "&force=true") = 1
  /\ occurrences "&force=true"
       (address +:+ "/schema/diff?access_token=" +:+ token +:+ "") = 0.
Proof.
  intros Ha Ht. split.
  - rewrite (occurrences_app "&" "force=true" address); [| right].
    + rewrite Ha, Nat.add_0_l.
      rewrite (occurrences_skip "&" "force=true" "/schema/diff?access_token=")
        by reflexivity.
      rewrite (occurrences_app "&" "force=true" token); [| right].
      * now rewrite Ht.
      * now exists "&"%char, "force=true".
    + now exists "/"%char, ("schema/diff?access_token=" +:+ token +:+ "&force=true").
  - rewrite (occurrences_app "&" "force=true" address); [| right].
    + rewrite Ha, Nat.add_0_l.
      rewrite (occurrences_skip "&" "force=true" "/schema/diff?access_token=")
        by reflexivity.
      rewrite (occurrences_app "&" "force=true" token); [| now left].
      now rewrite Ht.
    + now exists "/"%char, ("schema/diff?access_token=" +:+ token +:+ "").
Qed.

(** C6, as stated, fails: a token that itself ends in ["&force=true"] is
    copied into the URL as it is, so the forced diff request carries the
    flag twice and the unforced one still carries it. *)
Lemma force_flag_occurs_twice :
  let RT := Stub.runtime [] in
  let w := Stub.world [] "http://target" "tt&force=true" in
  Stub.urls (snd (GetDiff 0 None true w))
  = ["http://target/schema/diff?access_token=tt&force=true&force=true"]
  /\ occurrences "&force=true"
       "http://target/schema/diff?access_token=tt&force=true&force=true" = 2
  /\ Stub.urls (snd (GetDiff 0 None false w))
     = ["http://target/schema/diff?access_token=tt&force=true"]
  /\ occurrences "&force=true"
       "http://target/schema/diff?access_token=tt&force=true" = 1.
Proof. cbv zeta. repeat split; reflexivity. Qed.

(** C6, amended: for every snapshot, address and token, the forced and
    the unforced diff request differ in the URL only, and the forced URL
    is the unforced one with ["&force=true"] appended once at its end;
    when neither the address nor the token contains ["&force=true"], the
    flag occurs exactly once in the forced URL and not at all in the
    unforced one. *)
Theorem force_flag_is_appended `{RT : Runtime} c w cl hc snapshot body :
  clients w !! c = Some cl ->
  HTTPClient cl = Some hc ->
  json_Marshal snapshot = Ok body ->
  url_Parse (diffURL cl false) = None ->
  url_Parse (diffURL cl true) = None ->
  exists plain forced,
    snd (GetDiff c snapshot false w) = sent w plain
    /\ snd (GetDiff c snapshot true w) = sent w forced
    /\ http.URL plain
       = URL cl +:+ "/schema/diff?access_token=" +:+ AccessToken cl
    /\ http.URL forced = http.URL plain +:+ "&force=true"
    /\ http.Method forced = http.Method plain
    /\ http.Header forced = http.Header plain
    /\ http.ReqBody forced = http.ReqBody plain
    /\ (occurrences "&force=true" (URL cl) = 0 ->
        occurrences "&force=true" (AccessToken cl) = 0 ->
        occurrences "&force=true" (http.URL forced) = 1
        /\ occurrences "&force=true" (http.URL plain) = 0).
Proof.
  intros Hc Hhc Hbody Hplain Hforced.
  exists (diffRequest cl false body), (diffRequest cl true body).
  destruct (GetDiff_sends c w cl hc Hc Hhc snapshot false body Hbody Hplain)
    as [o1 ->].
  destruct (GetDiff_sends c w cl hc Hc Hhc snapshot true body Hbody Hforced)
    as [o2 ->].
  split; [reflexivity |]. split; [reflexivity |].
  unfold diffRequest, diffURL. cbn [http.URL http.Method http.Header http.ReqBody].
  split; [now rewrite append_nil_r |].
  split; [now rewrite !append_assoc |].
  do 3 (split; [reflexivity |]).
  intros Ha Ht. now apply force_flag_count.
Qed.

Lemma force_flag_is_appended_witness :
  let RT := Stub.runtime Stub.healthy in
  let w := Stub.world Stub.healthy "http://target" "tt" in
  Stub.urls (snd (GetDiff 0 None false w))
  = ["http://target/schema/diff?access_token=tt"]
  /\ Stub.urls (snd (GetDiff 0 None true w))
     = ["http://target/schema/diff?access_token=tt&force=true"]
  /\ occurrences "&force=true"
       "http://target/schema/diff?access_token=tt&force=true" = 1
  /\ occurrences "&force=true" "http://target/schema/diff?access_token=tt" = 0.
Proof.
  cbv zeta.
  destruct (force_flag_is_appended (RT := Stub.runtime Stub.healthy)
              0 (Stub.world Stub.healthy "http://target" "tt") _ _ None "null"
              eq_refl eq_refl eq_refl eq_refl eq_refl)
    as (plain & forced & -> & -> & Hplain & Hforced & _ & _ & _ & Hcount).
  destruct (Hcount eq_refl eq_refl) as (Hone & Hnone).
  rewrite Hforced, Hplain in Hone. rewrite Hplain in Hnone.
  unfold Stub.urls, sent, Stub.world. cbn [network map app].
  rewrite Hforced, Hplain.
  split; [reflexivity |]. split; [reflexivity |].
  split; [exact Hone | exact Hnone].
Defined.

(** ** Round trips and client state *)

(** C9, as stated, fails: when [http.NewRequest] rejects the URL (here an
    address that ends in a line feed), GetSnapshot returns its error
    without any round trip. *)
Lemma GetSnapshot_without_round_trip :
  let RT := Stub.runtime Stub.healthy in
  let w := Stub.world Stub.healthy ("http://base" +:+ String "010" "") "bt" in
  fst (GetSnapshot 0 w)
  = Return (Err (wrap "failed to create snapshot request: "
                   (errorString "net/url: invalid control character in URL")))
  /\ network (snd (GetSnapshot 0 w)) = network w.
Proof. cbv zeta. split; reflexivity. Qed.

(** C9, amended: every invocation of GetSnapshot, GetDiff and ApplyDiff
    leaves the allocated clients (their URL, AccessToken and HTTPClient
    fields) and the output as they were and adds at most one request to
    the log; it adds exactly one whenever the client exists and has a
    transport, the payload was marshalled and [http.NewRequest] accepted
    the URL. *)
Theorem at_most_one_round_trip `{RT : Runtime} c w :
  (let w' := snd (GetSnapshot c w) in
   clients w' = clients w /\ stdout w' = stdout w
   /\ (network w' = network w
       \/ exists req, network w' = (network w ++ [req])%list)
   /\ (forall cl hc,
         clients w !! c = Some cl -> HTTPClient cl = Some hc ->
         url_Parse (snapshotURL cl) = None ->
         network w' = (network w ++ [snapshotRequest cl])%list))
  /\ (forall snapshot force,
        let w' := snd (GetDiff c snapshot force w) in
        clients w' = clients w /\ stdout w' = stdout w
        /\ (network w' = network w
            \/ exists req, network w' = (network w ++ [req])%list)
        /\ (forall cl hc body,
              clients w !! c = Some cl -> HTTPClient cl = Some hc ->
              json_Marshal snapshot = Ok body ->
              url_Parse (diffURL cl force) = None ->
              network w' = (network w ++ [diffRequest cl force body])%list))
  /\ (forall diff,
        let w' := snd (ApplyDiff c diff w) in
        clients w' = clients w /\ stdout w' = stdout w
        /\ (network w' = network w
            \/ exists req, network w' = (network w ++ [req])%list)
        /\ (forall cl hc body,
              clients w !! c = Some cl -> HTTPClient cl = Some hc ->
              json_Marshal diff = Ok body ->
              url_Parse (applyURL cl) = None ->
              network w' = (network w ++ [applyRequest cl body])%list)).
Proof.
  split; [| split]; cbv zeta.
  - split; [| split; [| split]].
    + destruct (GetSnapshot_frame c w) as [-> | (cl & _ & ->)]; reflexivity.
    + destruct (GetSnapshot_frame c w) as [-> | (cl & _ & ->)]; reflexivity.
    + destruct (GetSnapshot_frame c w) as [-> | (cl & _ & ->)]; simpl; eauto.
    + intros cl hc Hc Hhc Hurl.
      now destruct (GetSnapshot_sends c w cl hc Hc Hhc Hurl) as [o ->].
  - intros snapshot force. split; [| split; [| split]].
    + destruct (GetDiff_frame c snapshot force w)
        as [-> | (cl & body & _ & _ & ->)]; reflexivity.
    + destruct (GetDiff_frame c snapshot force w)
        as [-> | (cl & body & _ & _ & ->)]; reflexivity.
    + destruct (GetDiff_frame c snapshot force w)
        as [-> | (cl & body & _ & _ & ->)]; simpl; eauto.
    + intros cl hc body Hc Hhc Hbody Hurl.
      now destruct (GetDiff_sends c w cl hc Hc Hhc snapshot force body
                      Hbody Hurl) as [o ->].
  - intros diff. split; [| split; [| split]].
    + destruct (ApplyDiff_frame c diff w)
        as [-> | (cl & body & _ & _ & ->)]; reflexivity.
    + destruct (ApplyDiff_frame c diff w)
        as [-> | (cl & body & _ & _ & ->)]; reflexivity.
    + destruct (ApplyDiff_frame c diff w)
        as [-> | (cl & body & _ & _ & ->)]; simpl; eauto.
    + intros cl hc body Hc Hhc Hbody Hurl.
      now destruct (ApplyDiff_sends c w cl hc Hc Hhc diff body Hbody Hurl)
        as [o ->].
Qed.

Lemma at_most_one_round_trip_witness :
  let RT := Stub.runtime Stub.healthy in
  length (network (snd (GetSnapshot 0 (Stub.world Stub.healthy "http://base" "bt"))))
  = 1
  /\ length (network (snd (GetDiff 0 None false
                             (Stub.world Stub.healthy "http://target" "tt"))))
     = 1
  /\ length (network (snd (ApplyDiff 0 None
                             (Stub.world Stub.healthy "http://target" "tt"))))
     = 1.
Proof.
  cbv zeta.
  pose proof (at_most_one_round_trip (RT := Stub.runtime Stub.healthy)
                0 (Stub.world Stub.healthy "http://base" "bt"))
    as ((_ & _ & _ & Hs) & _ & _).
  pose proof (at_most_one_round_trip (RT := Stub.runtime Stub.healthy)
                0 (Stub.world Stub.healthy "http://target" "tt"))
    as (_ & Hd & Ha).
  destruct (Hd None false) as (_ & _ & _ & Hd').
  destruct (Ha None) as (_ & _ & _ & Ha').
  rewrite (Hs _ _ eq_refl eq_refl eq_refl).
  rewrite (Hd' _ _ "null" eq_refl eq_refl eq_refl eq_refl).
  rewrite (Ha' _ _ "null" eq_refl eq_refl eq_refl eq_refl).
  repeat split.
Defined.

(** ** Request URLs *)

(** C10: for every address and token, with no condition on either, the URL
    each operation hands to [http.NewRequest], and sends when that accepts
    it, is the address, the endpoint path with ["?access_token="], and the
    token, joined as they are (and ["&force=true"] after a forced diff).
    Nothing is escaped: an unforced diff with token [t ++ "&force=true"]
    has the URL of a forced diff with token [t]; and empty strings give
    the bare path. *)
Theorem request_URL_is_concatenation `{RT : Runtime} c w cl hc :
  clients w !! c = Some cl ->
  HTTPClient cl = Some hc ->
  (url_Parse (URL cl +:+ "/schema/snapshot?access_token=" +:+ AccessToken cl)
   = None ->
   exists req,
     snd (GetSnapshot c w) = sent w req
     /\ http.URL req
        = URL cl +:+ "/schema/snapshot?access_token=" +:+ AccessToken cl)
  /\ (forall snapshot (force : bool) body,
        json_Marshal snapshot = Ok body ->
        url_Parse (URL cl +:+ "/schema/diff?access_token=" +:+ AccessToken cl
                     +:+ (if force then "&force=true" else "")) = None ->
        exists req,
          snd (GetDiff c snapshot force w) = sent w req
          /\ http.URL req
             = URL cl +:+ "/schema/diff?access_token=" +:+ AccessToken cl
                 +:+ (if force then "&force=true" else ""))
  /\ (forall diff body,
        json_Marshal diff = Ok body ->
        url_Parse (URL cl +:+ "/schema/apply?access_token=" +:+ AccessToken cl)
        = None ->
        exists req,
          snd (ApplyDiff c diff w) = sent w req
          /\ http.URL req
             = URL cl +:+ "/schema/apply?access_token=" +:+ AccessToken cl)
  /\ (forall address token,
        fmt.Sprintf "%s/schema/diff?access_token=%s"
          [fmt.arg_string address; fmt.arg_string (token +:+ "&force=true")]
        = fmt.Sprintf "%s/schema/diff?access_token=%s"
            [fmt.arg_string address; fmt.arg_string token]
          +:+ "&force=true")
  /\ fmt.Sprintf "%s/schema/snapshot?access_token=%s"
       [fmt.arg_string ""; fmt.arg_string ""]
     = "/schema/snapshot?access_token=".
Proof.
  intros Hc Hhc. split; [| split; [| split; [| split]]].
  - intros Hurl. exists (snapshotRequest cl).
    now destruct (GetSnapshot_sends c w cl hc Hc Hhc Hurl) as [o ->].
  - intros snapshot force body Hbody Hurl. exists (diffRequest cl force body).
    now destruct (GetDiff_sends c w cl hc Hc Hhc snapshot force body Hbody Hurl)
      as [o ->].
  - intros diff body Hbody Hurl. exists (applyRequest cl body).
    now destruct (ApplyDiff_sends c w cl hc Hc Hhc diff body Hbody Hurl)
      as [o ->].
  - intros address token. simpl. rewrite !append_nil_r, append_assoc.
    f_equal.
  - reflexivity.
Qed.

Lemma request_URL_is_concatenation_witness :
  let RT := Stub.runtime [] in
  Stub.urls (snd (GetSnapshot 0 (Stub.world [] "" "")))
  = ["/schema/snapshot?access_token="]
  /\ Stub.urls (snd (GetDiff 0 None false (Stub.world [] "h?x=1#" "a b&c=d")))
     = ["h?x=1#/schema/diff?access_token=a b&c=d"]
  /\ Stub.urls (snd (ApplyDiff 0 None (Stub.world [] "h" "t#frag")))
     = ["h/schema/apply?access_token=t#frag"].
Proof.
  cbv zeta.
  pose proof (request_URL_is_concatenation (RT := Stub.runtime [])
                0 (Stub.world [] "" "") _ _ eq_refl eq_refl)
    as (Hs & _).
  pose proof (request_URL_is_concatenation (RT := Stub.runtime [])
                0 (Stub.world [] "h?x=1#" "a b&c=d") _ _ eq_refl eq_refl)
    as (_ & Hd & _).
  pose proof (request_URL_is_concatenation (RT := Stub.runtime [])
                0 (Stub.world [] "h" "t#frag") _ _ eq_refl eq_refl)
    as (_ & _ & Ha & _).
  destruct (Hs eq_refl) as (r1 & -> & H1).
  destruct (Hd None false "null" eq_refl eq_refl) as (r2 & -> & H2).
  destruct (Ha None "null" eq_refl eq_refl) as (r3 & -> & H3).
  unfold Stub.urls, sent, Stub.world. cbn [network map app].
  rewrite H1, H2, H3. repeat split.
Defined.

(** ** The end-to-end scenarios of the specification *)

(** Snapshot, diff and apply all succeed: Migrate reports success after
    three requests and six progress lines. *)
Example scenario_success :
  let run := Migrate (RT := Stub.runtime Stub.healthy)
               "http://base" "bt" "http://target" "tt" false Stub.empty in
  fst run = Return None
  /\ Stub.urls (snd run)
     = ["http://base/schema/snapshot?access_token=bt";
        "http://target/schema/diff?access_token=tt";
        "http://target/schema/apply?access_token=tt"]
  /\ length (stdout (snd run)) = 6.
Proof. cbv zeta. repeat split; vm_compute; reflexivity. Qed.

(** The base answers 500 ["internal error"]: the error text holds both the
    context line and the body, and the target receives nothing. *)
Example scenario_snapshot_rejected :
  let run := Migrate (RT := Stub.runtime Stub.failing)
               "http://base" "bt" "http://target" "tt" false Stub.empty in
  (exists e, fst run = Return (Some e)
             /\ Error e = "failed to get snapshot: snapshot request failed with status 500: internal error")
  /\ Stub.urls (snd run) = ["http://base/schema/snapshot?access_token=bt"].
Proof.
  cbv zeta. split; [| vm_compute; reflexivity].
  eexists. split; vm_compute; reflexivity.
Qed.

(** Apply answers 400 ["conflict"] after snapshot and diff succeeded, each
    requested once. *)
Example scenario_apply_rejected :
  let run := Migrate (RT := Stub.runtime Stub.conflict)
               "http://base" "bt" "http://target" "tt" false Stub.empty in
  (exists e, fst run = Return (Some e)
             /\ Error e = "failed to apply diff: apply request failed with status 400: conflict")
  /\ Stub.urls (snd run)
     = ["http://base/schema/snapshot?access_token=bt";
        "http://target/schema/diff?access_token=tt";
        "http://target/schema/apply?access_token=tt"].
Proof.
  cbv zeta. split; [| vm_compute; reflexivity].
  eexists. split; vm_compute; reflexivity.
Qed.


(** * Beyond the claims *)

(** ** The remaining paths of the operations *)

Section OtherPaths.

Context {RT : Runtime}.
Variables (c : nat) (w : World) (cl : DirectusClient).
Hypothesis Hc : clients w !! c = Some cl.

Lemma GetSnapshot_bad_URL err :
  url_Parse (snapshotURL cl) = Some err ->
  GetSnapshot c w
  = (Return (Err (wrap "failed to create snapshot request: " err)), w).
Proof.
  intros Hurl. enter Hc. build. unfold ret. do 3 f_equal. fmt_done.
Qed.

Lemma GetDiff_unmarshalable snapshot force err :
  json_Marshal snapshot = Err err ->
  GetDiff c snapshot force w
  = (Return (Err (wrap "failed to marshal snapshot for diff request: " err)),
     w).
Proof.
  intros Hbody. enter Hc. build. unfold ret. do 3 f_equal. fmt_done.
Qed.

Lemma GetDiff_bad_URL snapshot force body err :
  json_Marshal snapshot = Ok body ->
  url_Parse (diffURL cl force) = Some err ->
  GetDiff c snapshot force w
  = (Return (Err (wrap "failed to create diff request: " err)), w).
Proof.
  intros Hbody Hurl. enter Hc. build. unfold ret. do 3 f_equal. fmt_done.
Qed.

Lemma ApplyDiff_unmarshalable diff err :
  json_Marshal diff = Err err ->
  ApplyDiff c diff w
  = (Return (Some (wrap "failed to marshal diff for apply request: " err)), w).
Proof.
  intros Hbody. enter Hc. build. unfold ret. do 3 f_equal. fmt_done.
Qed.

Lemma ApplyDiff_bad_URL diff body err :
  json_Marshal diff = Ok body ->
  url_Parse (applyURL cl) = Some err ->
  ApplyDiff c diff w
  = (Return (Some (wrap "failed to create apply request: " err)), w).
Proof.
  intros Hbody Hurl. enter Hc. build. unfold ret. do 3 f_equal. fmt_done.
Qed.

Section NoTransport.

Hypothesis Hnil : HTTPClient cl = None.

Lemma GetSnapshot_no_transport :
  url_Parse (snapshotURL cl) = None ->
  GetSnapshot c w = (Panic NilDereference, w).
Proof. intros Hurl. enter Hc. build. unfold Do. now rewrite Hnil. Qed.

Lemma GetDiff_no_transport snapshot force body :
  json_Marshal snapshot = Ok body ->
  url_Parse (diffURL cl force) = None ->
  GetDiff c snapshot force w = (Panic NilDereference, w).
Proof. intros Hbody Hurl. enter Hc. build. unfold Do. now rewrite Hnil. Qed.

Lemma ApplyDiff_no_transport diff body :
  json_Marshal diff = Ok body ->
  url_Parse (applyURL cl) = None ->
  ApplyDiff c diff w = (Panic NilDereference, w).
Proof. intros Hbody Hurl. enter Hc. build. unfold Do. now rewrite Hnil. Qed.

End NoTransport.

Section Transport.

Variable hc : http.Client.
Hypothesis Hhc : HTTPClient cl = Some hc.

Lemma GetSnapshot_transport err :
  url_Parse (snapshotURL cl) = None ->
  http.exchange hc (network w) (snapshotRequest cl) = Err err ->
  GetSnapshot c w
  = (Return (Err (wrap "failed to execute snapshot request: " err)),
     sent w (snapshotRequest cl)).
Proof.
  intros Hurl Hex. enter Hc. build. send Hhc Hex.
  unfold ret. do 3 f_equal. fmt_done.
Qed.

Lemma GetSnapshot_undecodable resp err :
  url_Parse (snapshotURL cl) = None ->
  http.exchange hc (network w) (snapshotRequest cl) = Ok resp ->
  http.StatusCode resp = 200%Z ->
  json_Decode (http.Body resp) = Err err ->
  GetSnapshot c w
  = (Return (Err (wrap "failed to decode snapshot response: " err)),
     sent w (snapshotRequest cl)).
Proof.
  intros Hurl Hex Hst Hdec. apply Z.eqb_eq in Hst.
  enter Hc. build. send Hhc Hex. status Hst. rewrite Hdec.
  unfold ret. do 3 f_equal. fmt_done.
Qed.

Lemma GetDiff_transport snapshot force body err :
  json_Marshal snapshot = Ok body ->
  url_Parse (diffURL cl force) = None ->
  http.exchange hc (network w) (diffRequest cl force body) = Err err ->
  GetDiff c snapshot force w
  = (Return (Err (wrap "failed to execute diff request: " err)),
     sent w (diffRequest cl force body)).
Proof.
  intros Hbody Hurl Hex. enter Hc. build. send Hhc Hex.
  unfold ret. do 3 f_equal. fmt_done.
Qed.

Lemma GetDiff_undecodable snapshot force body resp err :
  json_Marshal snapshot = Ok body ->
  url_Parse (diffURL cl force) = None ->
  http.exchange hc (network w) (diffRequest cl force body) = Ok resp ->
  http.StatusCode resp = 200%Z ->
  json_Decode (http.Body resp) = Err err ->
  GetDiff c snapshot force w
  = (Return (Err (wrap "failed to decode diff response: " err)),
     sent w (diffRequest cl force body)).
Proof.
  intros Hbody Hurl Hex Hst Hdec. apply Z.eqb_eq in Hst.
  enter Hc. build. send Hhc Hex. status Hst. rewrite Hdec.
  unfold ret. do 3 f_equal. fmt_done.
Qed.

Lemma ApplyDiff_transport diff body err :
  json_Marshal diff = Ok body ->
  url_Parse (applyURL cl) = None ->
  http.exchange hc (network w) (applyRequest cl body) = Err err ->
  ApplyDiff c diff w
  = (Return (Some (wrap "failed to execute apply request: " err)),
     sent w (applyRequest cl body)).
Proof.
  intros Hbody Hurl Hex. enter Hc. build. send Hhc Hex.
  unfold ret. do 3 f_equal. fmt_done.
Qed.

End Transport.

End OtherPaths.

Section NilClient.

Context {RT : Runtime}.
Variables (c : nat) (w : World).
Hypothesis Hnil : clients w !! c = None.

Lemma GetSnapshot_nil : GetSnapshot c w = (Panic NilDereference, w).
Proof. unfold GetSnapshot, bind, deref. now rewrite Hnil. Qed.

Lemma GetDiff_nil snapshot force :
  GetDiff c snapshot force w = (Panic NilDereference, w).
Proof. unfold GetDiff, bind, deref. now rewrite Hnil. Qed.

Lemma ApplyDiff_nil diff : ApplyDiff c diff w = (Panic NilDereference, w).
Proof. unfold ApplyDiff, bind, deref. now rewrite Hnil. Qed.

End NilClient.

(** ** The client *)

(** X1: NewDirectusClient does no I/O.  It returns a pointer that was not
    allocated before and now holds the given address and token with the
    default HTTP client; every client allocated before is still there,
    unchanged, and nothing is sent or printed. *)
Theorem NewDirectusClient_allocates `{RT : Runtime} url token w :
  exists c w',
    NewDirectusClient url token w = (Return c, w')
    /\ clients w !! c = None
    /\ clients w' !! c
       = Some {| URL := url; AccessToken := token;
                 HTTPClient := Some http_DefaultClient |}
    /\ (forall c' cl, clients w !! c' = Some cl -> clients w' !! c' = Some cl)
    /\ network w' = network w
    /\ stdout w' = stdout w.
Proof.
  eexists _, _. split; [reflexivity |]. cbn [clients network stdout].
  split; [apply lookup_ge_None_2; lia |].
  split; [rewrite lookup_app_r, Nat.sub_diag by lia; reflexivity |].
  split; [| split; reflexivity].
  intros c' cl H. now apply lookup_app_l_Some.
Qed.

Lemma NewDirectusClient_allocates_witness :
  let RT := Stub.runtime Stub.healthy in
  let w := Stub.world Stub.healthy "http://base" "bt" in
  fst (NewDirectusClient "http://target" "tt" w) = Return 1
  /\ URL <$> clients (snd (NewDirectusClient "http://target" "tt" w)) !! 0
     = Some "http://base".
Proof.
  cbv zeta.
  destruct (NewDirectusClient_allocates (RT := Stub.runtime Stub.healthy)
              "http://target" "tt"
              (Stub.world Stub.healthy "http://base" "bt"))
    as (c & w' & Hrun & _ & _ & Hkept & _).
  rewrite Hrun. cbn [fst snd]. rewrite (Hkept 0 _ eq_refl).
  injection Hrun as <- _. split; reflexivity.
Defined.

(** X2: whatever an operation sends follows the wire protocol.  GetSnapshot
    sends nothing or one GET with no body and no header; GetDiff and
    ApplyDiff send nothing or one POST whose body is [json.Marshal] of the
    document they were given and whose only header is
    [Content-Type: application/json]. *)
Theorem requests_follow_the_protocol `{RT : Runtime} c w :
  (snd (GetSnapshot c w) = w
   \/ exists req,
        snd (GetSnapshot c w) = sent w req
        /\ http.Method req = "GET" /\ http.ReqBody req = None
        /\ http.Header req = ∅)
  /\ (forall snapshot force,
        snd (GetDiff c snapshot force w) = w
        \/ exists req body,
             snd (GetDiff c snapshot force w) = sent w req
             /\ http.Method req = "POST"
             /\ json_Marshal snapshot = Ok body
             /\ http.ReqBody req = Some body
             /\ http.Header req = {[ "Content-Type" := ["application/json"] ]})
  /\ (forall diff,
        snd (ApplyDiff c diff w) = w
        \/ exists req body,
             snd (ApplyDiff c diff w) = sent w req
             /\ http.Method req = "POST"
             /\ json_Marshal diff = Ok body
             /\ http.ReqBody req = Some body
             /\ http.Header req = {[ "Content-Type" := ["application/json"] ]}).
Proof.
  split; [| split].
  - destruct (GetSnapshot_frame c w) as [H | (cl & _ & H)]; [now left |].
    right. exists (snapshotRequest cl). now rewrite H.
  - intros snapshot force.
    destruct (GetDiff_frame c snapshot force w)
      as [H | (cl & body & _ & Hbody & H)]; [now left |].
    right. exists (diffRequest cl force body), body. now rewrite H.
  - intros diff.
    destruct (ApplyDiff_frame c diff w)
      as [H | (cl & body & _ & Hbody & H)]; [now left |].
    right. exists (applyRequest cl body), body. now rewrite H.
Qed.

(** X3: when the transport fails (no response at all), each operation
    returns an error that wraps the transport's error under
    ["failed to execute <op> request: "], after its one request. *)
Theorem transport_error_is_wrapped `{RT : Runtime} c w cl hc err :
  clients w !! c = Some cl ->
  HTTPClient cl = Some hc ->
  (url_Parse (snapshotURL cl) = None ->
   http.exchange hc (network w) (snapshotRequest cl) = Err err ->
   exists e,
     GetSnapshot c w = (Return (Err e), sent w (snapshotRequest cl))
     /\ Unwrap e = Some err
     /\ Error e = "failed to execute snapshot request: " +:+ Error err)
  /\ (forall snapshot force body,
        json_Marshal snapshot = Ok body ->
        url_Parse (diffURL cl force) = None ->
        http.exchange hc (network w) (diffRequest cl force body) = Err err ->
        exists e,
          GetDiff c snapshot force w
          = (Return (Err e), sent w (diffRequest cl force body))
          /\ Unwrap e = Some err
          /\ Error e = "failed to execute diff request: " +:+ Error err)
  /\ (forall diff body,
        json_Marshal diff = Ok body ->
        url_Parse (applyURL cl) = None ->
        http.exchange hc (network w) (applyRequest cl body) = Err err ->
        exists e,
          ApplyDiff c diff w = (Return (Some e), sent w (applyRequest cl body))
          /\ Unwrap e = Some err
          /\ Error e = "failed to execute apply request: " +:+ Error err).
Proof.
  intros Hc Hhc. split; [| split].
  - intros Hurl Hex. eexists.
    split; [exact (GetSnapshot_transport c w cl Hc hc Hhc err Hurl Hex) |].
    split; reflexivity.
  - intros snapshot force body Hbody Hurl Hex.
    eexists.
    split; [exact (GetDiff_transport c w cl Hc hc Hhc snapshot force body err
                     Hbody Hurl Hex) |].
    split; reflexivity.
  - intros diff body Hbody Hurl Hex.
    eexists.
    split; [exact (ApplyDiff_transport c w cl Hc hc Hhc diff body err
                     Hbody Hurl Hex) |].
    split; reflexivity.
Qed.

Lemma transport_error_is_wrapped_witness :
  let RT := Stub.runtime [] in
  let w := Stub.world [] "http://base" "bt" in
  (exists e, fst (GetSnapshot 0 w) = Return (Err e)
             /\ Error e = "failed to execute snapshot request: dial tcp: connection refused")
  /\ (exists e, fst (GetDiff 0 None true w) = Return (Err e)
                /\ Error e = "failed to execute diff request: dial tcp: connection refused")
  /\ (exists e, fst (ApplyDiff 0 None w) = Return (Some e)
                /\ Error e = "failed to execute apply request: dial tcp: connection refused").
Proof.
  cbv zeta.
  pose proof (transport_error_is_wrapped (RT := Stub.runtime [])
                0 (Stub.world [] "http://base" "bt") _ _
                (errorString "dial tcp: connection refused") eq_refl eq_refl)
    as (Hs & Hd & Ha).
  split; [| split].
  - destruct (Hs eq_refl eq_refl) as (e & -> & _ & Htext).
    exists e. split; [reflexivity | exact Htext].
  - destruct (Hd None true "null" eq_refl eq_refl eq_refl)
      as (e & -> & _ & Htext).
    exists e. split; [reflexivity | exact Htext].
  - destruct (Ha None "null" eq_refl eq_refl eq_refl) as (e & -> & _ & Htext).
    exists e. split; [reflexivity | exact Htext].
Defined.

(** X4: when [http.NewRequest] rejects the URL, each operation returns an
    error that wraps the parse error under
    ["failed to create <op> request: "] and leaves the world as it was: no
    request is sent.  This holds whether or not the client has a
    transport. *)
Theorem rejected_URL_sends_nothing `{RT : Runtime} c w cl err :
  clients w !! c = Some cl ->
  (url_Parse (snapshotURL cl) = Some err ->
   exists e,
     GetSnapshot c w = (Return (Err e), w)
     /\ Unwrap e = Some err
     /\ Error e = "failed to create snapshot request: " +:+ Error err)
  /\ (forall snapshot force body,
        json_Marshal snapshot = Ok body ->
        url_Parse (diffURL cl force) = Some err ->
        exists e,
          GetDiff c snapshot force w = (Return (Err e), w)
          /\ Unwrap e = Some err
          /\ Error e = "failed to create diff request: " +:+ Error err)
  /\ (forall diff body,
        json_Marshal diff = Ok body ->
        url_Parse (applyURL cl) = Some err ->
        exists e,
          ApplyDiff c diff w = (Return (Some e), w)
          /\ Unwrap e = Some err
          /\ Error e = "failed to create apply request: " +:+ Error err).
Proof.
  intros Hc. split; [| split].
  - intros Hurl. eexists.
    split; [exact (GetSnapshot_bad_URL c w cl Hc err Hurl) |].
    split; reflexivity.
  - intros snapshot force body Hbody Hurl. eexists.
    split; [exact (GetDiff_bad_URL c w cl Hc snapshot force body err
                     Hbody Hurl) |].
    split; reflexivity.
  - intros diff body Hbody Hurl. eexists.
    split; [exact (ApplyDiff_bad_URL c w cl Hc diff body err Hbody Hurl) |].
    split; reflexivity.
Qed.

Lemma rejected_URL_sends_nothing_witness :
  let RT := Stub.runtime Stub.healthy in
  let w := Stub.world Stub.healthy ("http://base" +:+ LF) "bt" in
  (exists e, GetSnapshot 0 w = (Return (Err e), w)
             /\ Error e = "failed to create snapshot request: net/url: invalid control character in URL")
  /\ (exists e, GetDiff 0 None false w = (Return (Err e), w)
                /\ Error e = "failed to create diff request: net/url: invalid control character in URL")
  /\ (exists e, ApplyDiff 0 None w = (Return (Some e), w)
                /\ Error e = "failed to create apply request: net/url: invalid control character in URL").
Proof.
  cbv zeta.
  pose proof (rejected_URL_sends_nothing (RT := Stub.runtime Stub.healthy)
                0 (Stub.world Stub.healthy ("http://base" +:+ LF) "bt") _
                (errorString "net/url: invalid control character in URL")
                eq_refl)
    as (Hs & Hd & Ha).
  split; [| split].
  - destruct (Hs eq_refl) as (e & Hrun & _ & Htext).
    exists e. split; [exact Hrun | exact Htext].
  - destruct (Hd None false "null" eq_refl eq_refl) as (e & Hrun & _ & Htext).
    exists e. split; [exact Hrun | exact Htext].
  - destruct (Ha None "null" eq_refl eq_refl) as (e & Hrun & _ & Htext).
    exists e. split; [exact Hrun | exact Htext].
Defined.

(** X5: GetDiff and ApplyDiff marshal their document before anything else
    that can fail: when [json.Marshal] fails they return an error that
    wraps its error under ["failed to marshal ... request: "] and send
    nothing, whatever the URL and whether or not the client has a
    transport. *)
Theorem marshal_failure_comes_first `{RT : Runtime} c w cl document err :
  clients w !! c = Some cl ->
  json_Marshal document = Err err ->
  (forall force,
      exists e,
        GetDiff c document force w = (Return (Err e), w)
        /\ Unwrap e = Some err
        /\ Error e
           = "failed to marshal snapshot for diff request: " +:+ Error err)
  /\ (exists e,
        ApplyDiff c document w = (Return (Some e), w)
        /\ Unwrap e = Some err
        /\ Error e = "failed to marshal diff for apply request: " +:+ Error err).
Proof.
  intros Hc Hbody. split.
  - intros force. eexists.
    split; [exact (GetDiff_unmarshalable c w cl Hc document force err Hbody) |].
    split; reflexivity.
  - eexists.
    split; [exact (ApplyDiff_unmarshalable c w cl Hc document err Hbody) |].
    split; reflexivity.
Qed.

Lemma marshal_failure_comes_first_witness :
  let RT := Fixture.unmarshalable Stub.healthy in
  let w := Fixture.bare ("http://target" +:+ LF) "tt" in
  (exists e, GetDiff 0 None true w = (Return (Err e), w)
             /\ Error e = "failed to marshal snapshot for diff request: json: unsupported value: NaN")
  /\ (exists e, ApplyDiff 0 None w = (Return (Some e), w)
                /\ Error e = "failed to marshal diff for apply request: json: unsupported value: NaN").
Proof.
  cbv zeta.
  pose proof (marshal_failure_comes_first
                (RT := Fixture.unmarshalable Stub.healthy)
                0 (Fixture.bare ("http://target" +:+ LF) "tt") _ None
                (errorString "json: unsupported value: NaN") eq_refl eq_refl)
    as (Hd & Ha).
  split.
  - destruct (Hd true) as (e & Hrun & _ & Htext).
    exists e. split; [exact Hrun | exact Htext].
  - destruct Ha as (e & Hrun & _ & Htext).
    exists e. split; [exact Hrun | exact Htext].
Defined.

(** X6: when the response has status 200 and its body does not decode,
    GetSnapshot and GetDiff return an error that wraps the decoder's error
    under ["failed to decode <op> response: "]. *)
Theorem undecodable_body_is_an_error `{RT : Runtime} c w cl hc :
  clients w !! c = Some cl ->
  HTTPClient cl = Some hc ->
  (forall resp err,
      url_Parse (snapshotURL cl) = None ->
      http.exchange hc (network w) (snapshotRequest cl) = Ok resp ->
      http.StatusCode resp = 200%Z ->
      json_Decode (http.Body resp) = Err err ->
      exists e,
        fst (GetSnapshot c w) = Return (Err e)
        /\ Unwrap e = Some err
        /\ Error e = "failed to decode snapshot response: " +:+ Error err)
  /\ (forall snapshot force body resp err,
        json_Marshal snapshot = Ok body ->
        url_Parse (diffURL cl force) = None ->
        http.exchange hc (network w) (diffRequest cl force body) = Ok resp ->
        http.StatusCode resp = 200%Z ->
        json_Decode (http.Body resp) = Err err ->
        exists e,
          fst (GetDiff c snapshot force w) = Return (Err e)
          /\ Unwrap e = Some err
          /\ Error e = "failed to decode diff response: " +:+ Error err).
Proof.
  intros Hc Hhc. split.
  - intros resp err Hurl Hex Hst Hdec.
    rewrite (GetSnapshot_undecodable c w cl Hc hc Hhc resp err
               Hurl Hex Hst Hdec).
    eexists. split; [reflexivity |]. split; reflexivity.
  - intros snapshot force body resp err Hbody Hurl Hex Hst Hdec.
    rewrite (GetDiff_undecodable c w cl Hc hc Hhc snapshot force body resp err
               Hbody Hurl Hex Hst Hdec).
    eexists. split; [reflexivity |]. split; reflexivity.
Qed.

Lemma undecodable_body_is_an_error_witness :
  let RT := Stub.runtime Fixture.odd_bodies in
  let w := Stub.world Fixture.odd_bodies "http://base" "bt" in
  (exists e, fst (GetSnapshot 0 w) = Return (Err e)
             /\ Error e = "failed to decode snapshot response: invalid character looking for beginning of value")
  /\ (exists e, fst (GetDiff 0 None false w) = Return (Err e)
                /\ Error e = "failed to decode diff response: invalid character looking for beginning of value").
Proof.
  cbv zeta.
  pose proof (undecodable_body_is_an_error
                (RT := Stub.runtime Fixture.odd_bodies)
                0 (Stub.world Fixture.odd_bodies "http://base" "bt") _ _
                eq_refl eq_refl)
    as (Hs & Hd).
  pose (resp := {| http.StatusCode := 200;
                   http.Body := {| io.content := "<html>";
                                   io.readErr := None |} |}).
  pose (err := errorString "invalid character looking for beginning of value").
  split.
  - destruct (Hs resp err eq_refl eq_refl eq_refl eq_refl)
      as (e & Hrun & _ & Htext).
    exists e. split; [exact Hrun | exact Htext].
  - destruct (Hd None false "null" resp err eq_refl eq_refl eq_refl eq_refl
                eq_refl) as (e & Hrun & _ & Htext).
    exists e. split; [exact Hrun | exact Htext].
Defined.

(** X7: ApplyDiff never looks at the body of a 204 response: it returns
    nil for every response with status 204, whatever its body holds and
    even when reading it would fail. *)
Theorem ApplyDiff_ignores_the_body `{RT : Runtime} c w cl hc diff body text broken :
  clients w !! c = Some cl ->
  HTTPClient cl = Some hc ->
  json_Marshal diff = Ok body ->
  url_Parse (applyURL cl) = None ->
  http.exchange hc (network w) (applyRequest cl body)
  = Ok {| http.StatusCode := 204;
          http.Body := {| io.content := text; io.readErr := broken |} |} ->
  ApplyDiff c diff w = (Return None, sent w (applyRequest cl body)).
Proof.
  intros Hc Hhc Hbody Hurl Hex.
  exact (ApplyDiff_accepted c w cl hc Hc Hhc diff body Hbody Hurl _ Hex eq_refl).
Qed.

Lemma ApplyDiff_ignores_the_body_witness :
  fst (ApplyDiff (RT := Stub.runtime Fixture.odd_bodies) 0 None
         (Stub.world Fixture.odd_bodies "http://base" "bt"))
  = Return None.
Proof.
  now rewrite (ApplyDiff_ignores_the_body
                 (RT := Stub.runtime Fixture.odd_bodies)
                 0 (Stub.world Fixture.odd_bodies "http://base" "bt") _ _
                 None "null" "not empty" None
                 eq_refl eq_refl eq_refl eq_refl eq_refl).
Defined.

(** X8: when the response has status 200 and its body decodes to an
    object whose [data] is anything but a mapping (an array, a string, a
    number, a boolean or null), GetSnapshot and GetDiff do not return:
    they panic with the type-assertion error that names the value's
    dynamic type, after their one request. *)
Theorem non_mapping_data_panics `{RT : Runtime} c w cl hc data :
  clients w !! c = Some cl ->
  HTTPClient cl = Some hc ->
  (forall m, data <> any_map m) ->
  (forall resp result,
      url_Parse (snapshotURL cl) = None ->
      http.exchange hc (network w) (snapshotRequest cl) = Ok resp ->
      http.StatusCode resp = 200%Z ->
      json_Decode (http.Body resp) = Ok result ->
      map_index result "data" = Some data ->
      GetSnapshot c w
      = (Panic (TypeAssertionError (TypeOf data) kind_map),
         sent w (snapshotRequest cl)))
  /\ (forall snapshot force body resp result,
        json_Marshal snapshot = Ok body ->
        url_Parse (diffURL cl force) = None ->
        http.exchange hc (network w) (diffRequest cl force body) = Ok resp ->
        http.StatusCode resp = 200%Z ->
        json_Decode (http.Body resp) = Ok result ->
        map_index result "data" = Some data ->
        GetDiff c snapshot force w
        = (Panic (TypeAssertionError (TypeOf data) kind_map),
           sent w (diffRequest cl force body))).
Proof.
  intros Hc Hhc Hdata. split.
  - intros resp result Hurl Hex Hst Hdec Hget.
    rewrite (GetSnapshot_data c w cl hc Hc Hhc Hurl resp result data
               Hex Hst Hdec Hget).
    destruct data; try reflexivity. now destruct (Hdata m).
  - intros snapshot force body resp result Hbody Hurl Hex Hst Hdec Hget.
    rewrite (GetDiff_data c w cl hc Hc Hhc snapshot force body Hbody Hurl
               resp result data Hex Hst Hdec Hget).
    destruct data; try reflexivity. now destruct (Hdata m).
Qed.

Lemma non_mapping_data_panics_witness :
  fst (GetSnapshot (RT := Stub.runtime Stub.array_data) 0
         (Stub.world Stub.array_data "http://base" "bt"))
  = Panic (TypeAssertionError (Some kind_slice) kind_map)
  /\ fst (GetDiff (RT := Stub.runtime Fixture.array_diff) 0 None false
            (Stub.world Fixture.array_diff "http://target" "tt"))
     = Panic (TypeAssertionError (Some kind_slice) kind_map).
Proof.
  pose (resp := {| http.StatusCode := 200;
                   http.Body := {| io.content := "array-envelope";
                                   io.readErr := None |} |}).
  assert (Hdata : forall m, any_slice [] <> any_map m) by discriminate.
  split.
  - now rewrite (proj1 (non_mapping_data_panics
                          (RT := Stub.runtime Stub.array_data)
                          0 (Stub.world Stub.array_data "http://base" "bt")
                          _ _ (any_slice []) eq_refl eq_refl Hdata)
                   resp _ eq_refl eq_refl eq_refl eq_refl eq_refl).
  - now rewrite (proj2 (non_mapping_data_panics
                          (RT := Stub.runtime Fixture.array_diff)
                          0 (Stub.world Fixture.array_diff "http://target" "tt")
                          _ _ (any_slice []) eq_refl eq_refl Hdata)
                   None false "null" resp _
                   eq_refl eq_refl eq_refl eq_refl eq_refl eq_refl).
Defined.

(** X9: a client that cannot be used makes every operation panic with a
    nil dereference instead of returning an error, and nothing is sent:
    a nil [*DirectusClient] right away, and a [DirectusClient] without an
    [HTTPClient] (one not made by NewDirectusClient) once the request is
    built. *)
Theorem unusable_client_panics `{RT : Runtime} c w :
  (clients w !! c = None ->
   GetSnapshot c w = (Panic NilDereference, w)
   /\ (forall snapshot force,
         GetDiff c snapshot force w = (Panic NilDereference, w))
   /\ (forall diff, ApplyDiff c diff w = (Panic NilDereference, w)))
  /\ (forall cl,
        clients w !! c = Some cl ->
        HTTPClient cl = None ->
        (url_Parse (snapshotURL cl) = None ->
         GetSnapshot c w = (Panic NilDereference, w))
        /\ (forall snapshot force body,
              json_Marshal snapshot = Ok body ->
              url_Parse (diffURL cl force) = None ->
              GetDiff c snapshot force w = (Panic NilDereference, w))
        /\ (forall diff body,
              json_Marshal diff = Ok body ->
              url_Parse (applyURL cl) = None ->
              ApplyDiff c diff w = (Panic NilDereference, w))).
Proof.
  split.
  - intros Hnil. split; [| split].
    + now apply GetSnapshot_nil.
    + intros snapshot force. now apply GetDiff_nil.
    + intros diff. now apply ApplyDiff_nil.
  - intros cl Hc Hnil. split; [| split].
    + now apply (GetSnapshot_no_transport c w cl).
    + intros snapshot force body. now apply (GetDiff_no_transport c w cl).
    + intros diff body. now apply (ApplyDiff_no_transport c w cl).
Qed.

Lemma unusable_client_panics_witness :
  let RT := Stub.runtime Stub.healthy in
  fst (GetSnapshot 3 Stub.empty) = Panic NilDereference
  /\ fst (GetDiff 0 None false (Fixture.bare "http://target" "tt"))
     = Panic NilDereference
  /\ fst (ApplyDiff 0 None (Fixture.bare "http://target" "tt"))
     = Panic NilDereference.
Proof.
  cbv zeta.
  pose proof (unusable_client_panics (RT := Stub.runtime Stub.healthy)
                3 Stub.empty) as (Hnil & _).
  pose proof (unusable_client_panics (RT := Stub.runtime Stub.healthy)
                0 (Fixture.bare "http://target" "tt")) as (_ & Hbare).
  destruct (Hnil eq_refl) as (-> & _).
  destruct (Hbare _ eq_refl eq_refl) as (_ & Hd & Ha).
  rewrite (Hd None false "null" eq_refl eq_refl).
  rewrite (Ha None "null" eq_refl eq_refl).
  repeat split.
Defined.

(** ** What a success tells *)

(** Unfolds an operation in a hypothesis about its result and splits on
    every test it makes. *)
Ltac unravel H :=
  unfold GetSnapshot, GetDiff, ApplyDiff, bind, deref in H;
  match type of H with
  | context [clients ?w !! ?c] =>
      destruct (clients w !! c) eqn:?; [| discriminate H]
  end;
  cbv zeta in H;
  rewrite ?Sprintf_snapshotURL, ?Sprintf_diffURL, ?Sprintf_applyURL in H;
  unfold NewRequest, Do, assert_map, raise, ret in H;
  repeat case_match; simplify_eq;
  rewrite ?snapshotRequest_built, ?diffRequest_built, ?applyRequest_built,
    ?sent_built in *.

Section Success.

Context {RT : Runtime}.

Lemma GetSnapshot_returned c w m w' :
  GetSnapshot c w = (Return (Ok m), w') ->
  exists cl hc resp result,
    clients w !! c = Some cl /\ HTTPClient cl = Some hc
    /\ url_Parse (snapshotURL cl) = None
    /\ http.exchange hc (network w) (snapshotRequest cl) = Ok resp
    /\ http.StatusCode resp = 200%Z
    /\ json_Decode (http.Body resp) = Ok result
    /\ map_index result "data" = Some (any_map m)
    /\ w' = sent w (snapshotRequest cl).
Proof.
  intros H. unravel H.
  eexists _, _, _, _. eauto 10 using status_tested.
Qed.

Lemma GetDiff_returned c snapshot force w m w' :
  GetDiff c snapshot force w = (Return (Ok m), w') ->
  exists cl hc body resp result,
    clients w !! c = Some cl /\ HTTPClient cl = Some hc
    /\ json_Marshal snapshot = Ok body
    /\ url_Parse (diffURL cl force) = None
    /\ http.exchange hc (network w) (diffRequest cl force body) = Ok resp
    /\ http.StatusCode resp = 200%Z
    /\ json_Decode (http.Body resp) = Ok result
    /\ map_index result "data" = Some (any_map m)
    /\ w' = sent w (diffRequest cl force body).
Proof.
  intros H. unravel H.
  eexists _, _, _, _, _. eauto 12 using status_tested.
Qed.

Lemma ApplyDiff_returned c diff w w' :
  ApplyDiff c diff w = (Return None, w') ->
  exists cl hc body resp,
    clients w !! c = Some cl /\ HTTPClient cl = Some hc
    /\ json_Marshal diff = Ok body
    /\ url_Parse (applyURL cl) = None
    /\ http.exchange hc (network w) (applyRequest cl body) = Ok resp
    /\ http.StatusCode resp = 204%Z
    /\ w' = sent w (applyRequest cl body).
Proof.
  intros H. unravel H.
  eexists _, _, _, _. eauto 10 using status_tested.
Qed.

End Success.

(** ** Whole runs of Migrate *)

(** Closes the side conditions on the world a run ends in: its clients,
    its request log and output as lists appended to the initial ones, and
    the prefix and length conditions on those lists. *)
Ltac close_run :=
  first
    [ assumption
    | solve [eexists; reflexivity]
    | solve [simpl; lia]
    | solve [ unfold printed; cbn [network stdout];
              repeat match goal with
                | H : network _ = _ |- _ => rewrite H
                | H : stdout _ = _ |- _ => rewrite H
                | H : ?x = sent _ _ |- _ => subst x
                end;
              simpl; rewrite <- ?app_assoc;
              first [reflexivity | symmetry; apply app_nil_r] ] ].

Section Runs.

Context {RT : Runtime}.
Variables (baseURL baseToken targetURL targetToken : string) (force : bool).
Variable w : World.

Local Abbreviation base := (length (clients w)).
Local Abbreviation target := (S (length (clients w))).
Local Abbreviation w0 := (started w baseURL baseToken targetURL targetToken).
Local Abbreviation baseClient := (directusClient baseURL baseToken).
Local Abbreviation targetClient := (directusClient targetURL targetToken).
Local Abbreviation migrate :=
  (Migrate baseURL baseToken targetURL targetToken force w).

Lemma snapshot_returned snapshot w1 :
  GetSnapshot base w0 = (Return (Ok snapshot), w1) ->
  exists resp result,
    url_Parse (snapshotURL baseClient) = None
    /\ http.exchange http_DefaultClient (network w) (snapshotRequest baseClient)
       = Ok resp
    /\ http.StatusCode resp = 200%Z
    /\ json_Decode (http.Body resp) = Ok result
    /\ map_index result "data" = Some (any_map snapshot)
    /\ w1 = sent w0 (snapshotRequest baseClient).
Proof.
  intros H.
  destruct (GetSnapshot_returned _ _ _ _ H)
    as (cl & hc & resp & result & Hc & Hhc & Hrest).
  rewrite started_base in Hc. injection Hc as <-. injection Hhc as <-.
  now exists resp, result.
Qed.

Lemma diff_returned snapshot w1 diff w2 :
  clients w1 = clients w0 ->
  GetDiff target snapshot force (diffing w1) = (Return (Ok diff), w2) ->
  exists body resp result,
    json_Marshal snapshot = Ok body
    /\ url_Parse (diffURL targetClient force) = None
    /\ http.exchange http_DefaultClient (network w1)
         (diffRequest targetClient force body) = Ok resp
    /\ http.StatusCode resp = 200%Z
    /\ json_Decode (http.Body resp) = Ok result
    /\ map_index result "data" = Some (any_map diff)
    /\ w2 = sent (diffing w1) (diffRequest targetClient force body).
Proof.
  intros Hclients H.
  destruct (GetDiff_returned _ _ _ _ _ _ H)
    as (cl & hc & body & resp & result & Hc & Hhc & Hrest).
  simpl in Hc. rewrite Hclients, started_target in Hc.
  injection Hc as <-. injection Hhc as <-.
  now exists body, resp, result.
Qed.

Lemma apply_returned diff w2 w3 :
  clients w2 = clients w0 ->
  ApplyDiff target diff (applying w2) = (Return None, w3) ->
  exists body resp,
    json_Marshal diff = Ok body
    /\ url_Parse (applyURL targetClient) = None
    /\ http.exchange http_DefaultClient (network w2)
         (applyRequest targetClient body) = Ok resp
    /\ http.StatusCode resp = 204%Z
    /\ w3 = sent (applying w2) (applyRequest targetClient body).
Proof.
  intros Hclients H.
  destruct (ApplyDiff_returned _ _ _ _ H)
    as (cl & hc & body & resp & Hc & Hhc & Hrest).
  simpl in Hc. rewrite Hclients, started_target in Hc.
  injection Hc as <-. injection Hhc as <-.
  now exists body, resp.
Qed.

(** Every run allocates the two clients, base first, sends a prefix of
    snapshot, diff, apply, and prints a non-empty prefix of the progress
    lines. *)
Lemma Migrate_requests :
  exists reqs lines body1 body2,
    clients (snd migrate) = (clients w ++ [baseClient; targetClient])%list
    /\ network (snd migrate) = (network w ++ reqs)%list
    /\ reqs `prefix_of` [ snapshotRequest baseClient;
                          diffRequest targetClient force body1;
                          applyRequest targetClient body2 ]
    /\ stdout (snd migrate) = (stdout w ++ lines)%list
    /\ lines `prefix_of` progress
    /\ 0 < length lines.
Proof.
  assert (Hleaf : forall W reqs lines body1 body2,
             clients W = clients w0 ->
             network W = (network w ++ reqs)%list ->
             reqs `prefix_of` [ snapshotRequest baseClient;
                                diffRequest targetClient force body1;
                                applyRequest targetClient body2 ] ->
             stdout W = (stdout w ++ lines)%list ->
             lines `prefix_of` progress ->
             0 < length lines ->
             exists reqs lines body1 body2,
               clients W = (clients w ++ [baseClient; targetClient])%list
               /\ network W = (network w ++ reqs)%list
               /\ reqs `prefix_of` [ snapshotRequest baseClient;
                                     diffRequest targetClient force body1;
                                     applyRequest targetClient body2 ]
               /\ stdout W = (stdout w ++ lines)%list
               /\ lines `prefix_of` progress
               /\ 0 < length lines).
  { intros W reqs lines body1 body2 Hcl Hnet Hreqs Hout Hlines Hlen.
    exists reqs, lines, body1, body2.
    split; [rewrite Hcl; simpl; now rewrite <- app_assoc |]. auto. }
  pose proof (snapshot_step baseURL baseToken targetURL targetToken w)
    as (Hcl1 & Hout1 & Hnet1).
  destruct (GetSnapshot base w0) as [[[snapshot|err]|p] w1] eqn:H1;
    cbn [snd] in Hcl1, Hout1, Hnet1.
  - destruct (snapshot_returned snapshot w1 H1)
      as (_ & _ & _ & _ & _ & _ & _ & Hw1).
    pose proof (diff_step baseURL baseToken targetURL targetToken force w
                  snapshot w1 Hcl1) as (Hcl2 & Hout2 & Hnet2).
    destruct (GetDiff target snapshot force (diffing w1))
      as [[[diff|err]|p] w2] eqn:H2; cbn [snd] in Hcl2, Hout2, Hnet2.
    + destruct (diff_returned snapshot w1 diff w2 Hcl1 H2)
        as (body1 & _ & _ & _ & _ & _ & _ & _ & _ & Hw2).
      pose proof (apply_step baseURL baseToken targetURL targetToken w
                    diff w2 Hcl2) as (Hcl3 & Hout3 & Hnet3).
      rewrite (Migrate_applies _ _ _ _ force w snapshot w1 H1 diff w2 H2).
      destruct (ApplyDiff target diff (applying w2))
        as [[[err|]|p] w3] eqn:H3; cbn [snd] in Hcl3, Hout3, Hnet3 |- *;
        (destruct Hnet3 as [Hnet3 | (body2 & _ & Hnet3)];
         [ eapply (Hleaf _ [_; _] _ body1 EmptyString)
         | eapply (Hleaf _ [_; _; _] _ body1 body2) ];
         close_run).
    + rewrite (Migrate_diff_failed _ _ _ _ force w snapshot w1 H1 err w2 H2).
      cbn [snd].
      destruct Hnet2 as [Hnet2 | (body1 & _ & Hnet2)];
        [ eapply (Hleaf _ [_] _ EmptyString EmptyString)
        | eapply (Hleaf _ [_; _] _ body1 EmptyString) ];
        close_run.
    + rewrite (Migrate_diff_panics _ _ _ _ force w snapshot w1 H1 p w2 H2).
      cbn [snd].
      destruct Hnet2 as [Hnet2 | (body1 & _ & Hnet2)];
        [ eapply (Hleaf _ [_] _ EmptyString EmptyString)
        | eapply (Hleaf _ [_; _] _ body1 EmptyString) ];
        close_run.
  - rewrite (Migrate_snapshot_failed _ _ _ _ force w err w1 H1). cbn [snd].
    destruct Hnet1 as [Hnet1 | Hnet1];
      [ eapply (Hleaf _ [] _ EmptyString EmptyString)
      | eapply (Hleaf _ [_] _ EmptyString EmptyString) ];
      close_run.
  - rewrite (Migrate_snapshot_panics _ _ _ _ force w p w1 H1). cbn [snd].
    destruct Hnet1 as [Hnet1 | Hnet1];
      [ eapply (Hleaf _ [] _ EmptyString EmptyString)
      | eapply (Hleaf _ [_] _ EmptyString EmptyString) ];
      close_run.
Qed.

End Runs.

Section Served.

Context {RT : Runtime}.
Variables (baseURL baseToken targetURL targetToken : string) (force : bool).
Variable w : World.

Local Abbreviation base := (length (clients w)).
Local Abbreviation target := (S (length (clients w))).
Local Abbreviation w0 := (started w baseURL baseToken targetURL targetToken).
Local Abbreviation baseClient := (directusClient baseURL baseToken).
Local Abbreviation targetClient := (directusClient targetURL targetToken).

Lemma snapshot_served_run data :
  snapshot_served http_DefaultClient (network w) baseClient data ->
  GetSnapshot base w0
  = (match data with
     | any_map m => Return (Ok m)
     | _ => Panic (TypeAssertionError (TypeOf data) kind_map)
     end, sent w0 (snapshotRequest baseClient)).
Proof.
  intros (Hurl & resp & result & Hex & Hst & Hdec & Hdata).
  exact (GetSnapshot_data _ w0 _ http_DefaultClient
           (started_base _ _ _ _ w) eq_refl Hurl resp result data
           Hex Hst Hdec Hdata).
Qed.

Lemma diff_served_run w1 snapshot body data :
  clients w1 = clients w0 ->
  diff_served http_DefaultClient (network w1) targetClient force
    snapshot body data ->
  GetDiff target snapshot force (diffing w1)
  = (match data with
     | any_map m => Return (Ok m)
     | _ => Panic (TypeAssertionError (TypeOf data) kind_map)
     end, sent (diffing w1) (diffRequest targetClient force body)).
Proof.
  intros Hclients (Hbody & Hurl & resp & result & Hex & Hst & Hdec & Hdata).
  assert (Hc : clients (diffing w1) !! target = Some targetClient).
  { simpl. rewrite Hclients. apply started_target. }
  exact (GetDiff_data _ (diffing w1) _ http_DefaultClient Hc eq_refl
           snapshot force body Hbody Hurl resp result data
           Hex Hst Hdec Hdata).
Qed.

Lemma apply_served_run w2 diff body :
  clients w2 = clients w0 ->
  apply_served http_DefaultClient (network w2) targetClient diff body ->
  ApplyDiff target diff (applying w2)
  = (Return None, sent (applying w2) (applyRequest targetClient body)).
Proof.
  intros Hclients (Hbody & Hurl & resp & Hex & Hst).
  assert (Hc : clients (applying w2) !! target = Some targetClient).
  { simpl. rewrite Hclients. apply started_target. }
  exact (ApplyDiff_accepted _ (applying w2) _ http_DefaultClient Hc eq_refl
           diff body Hbody Hurl resp Hex Hst).
Qed.

End Served.

Lemma finished_world `{RT : Runtime}
    baseURL baseToken targetURL targetToken force w body1 body2 :
  printed
    (sent (applying
             (sent (diffing
                      (sent (started w baseURL baseToken targetURL targetToken)
                         (snapshotRequest (directusClient baseURL baseToken))))
                (diffRequest (directusClient targetURL targetToken)
                   force body1)))
       (applyRequest (directusClient targetURL targetToken) body2))
    "Diff applied successfully. Migration complete."
  = {| clients := clients w ++ [directusClient baseURL baseToken;
                                directusClient targetURL targetToken];
       network := network w
                    ++ [snapshotRequest (directusClient baseURL baseToken);
                        diffRequest (directusClient targetURL targetToken)
                          force body1;
                        applyRequest (directusClient targetURL targetToken)
                          body2];
       stdout := stdout w ++ progress |}.
Proof.
  unfold printed, sent, applying, diffing, printed, started, progress.
  cbn [clients network stdout]. f_equal; rewrite <- ?app_assoc; reflexivity.
Qed.

Lemma log_after_two (l : list http.Request) (a b : http.Request) :
  ((l ++ [a]) ++ [b] = l ++ [a; b])%list.
Proof. now rewrite <- app_assoc. Qed.

(** X10: Migrate returns nil exactly when the base answered the snapshot
    request with 200 and a mapping as [data], the target answered the diff
    request for that mapping with 200 and a mapping as [data], and the
    target answered the apply request for that second mapping with 204.
    The run then allocated the two clients, sent exactly these three
    requests in this order and printed all six progress lines. *)
Theorem Migrate_returns_nil_iff_applied `{RT : Runtime}
    baseURL baseToken targetURL targetToken force w w' :
  let baseClient := directusClient baseURL baseToken in
  let targetClient := directusClient targetURL targetToken in
  Migrate baseURL baseToken targetURL targetToken force w = (Return None, w')
  <-> exists snapshot body1 diff body2,
        snapshot_served http_DefaultClient (network w) baseClient
          (any_map snapshot)
        /\ diff_served http_DefaultClient
             (network w ++ [snapshotRequest baseClient])%list
             targetClient force snapshot body1 (any_map diff)
        /\ apply_served http_DefaultClient
             (network w ++ [snapshotRequest baseClient;
                            diffRequest targetClient force body1])%list
             targetClient diff body2
        /\ w' = {| clients := clients w ++ [baseClient; targetClient];
                   network := network w
                                ++ [snapshotRequest baseClient;
                                    diffRequest targetClient force body1;
                                    applyRequest targetClient body2];
                   stdout := stdout w ++ progress |}.
Proof.
  cbv zeta. split.
  - intros H.
    destruct (GetSnapshot (length (clients w))
                (started w baseURL baseToken targetURL targetToken))
      as [[[snapshot|err]|p] w1] eqn:H1.
    + destruct (snapshot_returned _ _ _ _ w snapshot w1 H1)
        as (resp1 & result1 & Hurl1 & Hex1 & Hst1 & Hdec1 & Hdata1 & Hw1).
      assert (Hcl1 : clients w1
                     = clients (started w baseURL baseToken targetURL
                                  targetToken))
        by now rewrite Hw1.
      destruct (GetDiff (S (length (clients w))) snapshot force (diffing w1))
        as [[[diff|err]|p] w2] eqn:H2.
      * destruct (diff_returned _ _ _ _ force w snapshot w1 diff w2 Hcl1 H2)
          as (body1 & resp2 & result2 & Hbody1 & Hurl2 & Hex2 & Hst2 & Hdec2
              & Hdata2 & Hw2).
        assert (Hcl2 : clients w2
                       = clients (started w baseURL baseToken targetURL
                                    targetToken))
          by now rewrite Hw2.
        rewrite (Migrate_applies _ _ _ _ force w snapshot w1 H1 diff w2 H2)
          in H.
        destruct (ApplyDiff (S (length (clients w))) diff (applying w2))
          as [[[err|]|p] w3] eqn:H3; [discriminate H | | discriminate H].
        destruct (apply_returned _ _ _ _ w diff w2 w3 Hcl2 H3)
          as (body2 & resp3 & Hbody2 & Hurl3 & Hex3 & Hst3 & Hw3).
        injection H as <-. subst w3 w2 w1.
        exists snapshot, body1, diff, body2.
        split; [split; [exact Hurl1 | eauto 6] |].
        split; [split; [exact Hbody1 | split; [exact Hurl2 | eauto 6]] |].
        split.
        { split; [exact Hbody2 | split; [exact Hurl3 |]].
          exists resp3. split; [| exact Hst3].
          rewrite <- log_after_two. exact Hex3. }
        apply finished_world.
      * rewrite (Migrate_diff_failed _ _ _ _ force w snapshot w1 H1 err w2 H2)
          in H.
        discriminate H.
      * rewrite (Migrate_diff_panics _ _ _ _ force w snapshot w1 H1 p w2 H2)
          in H.
        discriminate H.
    + rewrite (Migrate_snapshot_failed _ _ _ _ force w err w1 H1) in H.
      discriminate H.
    + rewrite (Migrate_snapshot_panics _ _ _ _ force w p w1 H1) in H.
      discriminate H.
  - intros (snapshot & body1 & diff & body2 & Hs & Hd & Ha & ->).
    set (w1 := sent (started w baseURL baseToken targetURL targetToken)
                 (snapshotRequest (directusClient baseURL baseToken))).
    set (w2 := sent (diffing w1)
                 (diffRequest (directusClient targetURL targetToken)
                    force body1)).
    pose proof (snapshot_served_run baseURL baseToken targetURL targetToken w
                  _ Hs) as H1.
    pose proof (diff_served_run baseURL baseToken targetURL targetToken force w
                  w1 snapshot body1 _ eq_refl Hd) as H2.
    rewrite <- log_after_two in Ha.
    pose proof (apply_served_run baseURL baseToken targetURL targetToken w
                  w2 diff body2 eq_refl Ha) as H3.
    rewrite (Migrate_applies _ _ _ _ force w snapshot w1 H1 diff w2 H2), H3.
    f_equal. apply finished_world.
Qed.

Lemma Migrate_returns_nil_iff_applied_witness :
  fst (Migrate (RT := Stub.runtime Stub.healthy)
         "http://base" "bt" "http://target" "tt" true Stub.empty)
  = Return None.
Proof.
  pose (envelope text :=
          {| http.StatusCode := 200;
             http.Body := {| io.content := text; io.readErr := None |} |}).
  pose (done := {| http.StatusCode := 204;
                   http.Body := {| io.content := ""; io.readErr := None |} |}).
  erewrite (proj2 (Migrate_returns_nil_iff_applied
                     (RT := Stub.runtime Stub.healthy)
                     "http://base" "bt" "http://target" "tt" true Stub.empty _));
    [reflexivity |].
  exists (Some {[ "fields" := any_slice [] ]}), "{fields}",
         (Some {[ "changes" := any_slice [] ]}), "{changes}".
  split; [split; [reflexivity |];
          exists (envelope "snapshot-envelope"),
                 (Some {[ "data" := Stub.document "fields" ]});
          repeat split |].
  split; [split; [reflexivity |]; split; [reflexivity |];
          exists (envelope "diff-envelope"),
                 (Some {[ "data" := Stub.document "changes" ]});
          repeat split |].
  split; [split; [reflexivity |]; split; [reflexivity |];
          exists done; repeat split |].
  reflexivity.
Defined.

(** X11: whatever happens, one run of Migrate allocates exactly the two
    clients (base first), sends at most three requests, and the ones it
    sends are a prefix of: the snapshot request to the base, the diff
    request to the target (with the force flag as given), the apply
    request to the target.  Nothing is sent twice or out of order, and the
    lines printed are a non-empty prefix of the six progress lines. *)
Theorem Migrate_sends_a_prefix `{RT : Runtime}
    baseURL baseToken targetURL targetToken force w :
  let baseClient := directusClient baseURL baseToken in
  let targetClient := directusClient targetURL targetToken in
  let w' := snd (Migrate baseURL baseToken targetURL targetToken force w) in
  exists reqs lines body1 body2,
    clients w' = (clients w ++ [baseClient; targetClient])%list
    /\ network w' = (network w ++ reqs)%list
    /\ reqs `prefix_of` [ snapshotRequest baseClient;
                          diffRequest targetClient force body1;
                          applyRequest targetClient body2 ]
    /\ stdout w' = (stdout w ++ lines)%list
    /\ lines `prefix_of` progress
    /\ 0 < length lines.
Proof. cbv zeta. apply Migrate_requests. Qed.

(** X12: a [data] that is not a mapping takes Migrate down with it.  When
    the base answers the snapshot request with 200 and such a [data],
    Migrate panics after that one request and one progress line; when the
    target answers the diff request so, Migrate panics after two requests
    and never applies.  In neither case does it return an error. *)
Theorem Migrate_panics_on_non_mapping_data `{RT : Runtime}
    baseURL baseToken targetURL targetToken force w data :
  let baseClient := directusClient baseURL baseToken in
  let targetClient := directusClient targetURL targetToken in
  let run := Migrate baseURL baseToken targetURL targetToken force w in
  (forall m, data <> any_map m) ->
  (snapshot_served http_DefaultClient (network w) baseClient data ->
   fst run = Panic (TypeAssertionError (TypeOf data) kind_map)
   /\ network (snd run) = (network w ++ [snapshotRequest baseClient])%list
   /\ stdout (snd run)
      = (stdout w ++ ["Retrieving snapshot from base project..."])%list)
  /\ (forall snapshot body1,
        snapshot_served http_DefaultClient (network w) baseClient
          (any_map snapshot) ->
        diff_served http_DefaultClient
          (network w ++ [snapshotRequest baseClient])%list
          targetClient force snapshot body1 data ->
        fst run = Panic (TypeAssertionError (TypeOf data) kind_map)
        /\ network (snd run)
           = (network w ++ [snapshotRequest baseClient;
                            diffRequest targetClient force body1])%list
        /\ stdout (snd run)
           = (stdout w ++ ["Retrieving snapshot from base project...";
                           "Snapshot retrieved successfully.";
                           "Retrieving diff from target project..."])%list).
Proof.
  cbv zeta. intros Hdata. split.
  - intros Hs.
    pose proof (snapshot_served_run baseURL baseToken targetURL targetToken w
                  _ Hs) as H1.
    assert (Hpanic : (match data with
                      | any_map m => Return (Ok m)
                      | _ => Panic (TypeAssertionError (TypeOf data) kind_map)
                      end : outcome (Result mapStringAny))
                     = Panic (TypeAssertionError (TypeOf data) kind_map)).
    { destruct data; try reflexivity. now destruct (Hdata m). }
    rewrite Hpanic in H1.
    rewrite (Migrate_snapshot_panics _ _ _ _ force w _ _ H1).
    repeat split.
  - intros snapshot body1 Hs Hd.
    set (w1 := sent (started w baseURL baseToken targetURL targetToken)
                 (snapshotRequest (directusClient baseURL baseToken))).
    pose proof (snapshot_served_run baseURL baseToken targetURL targetToken w
                  _ Hs) as H1.
    pose proof (diff_served_run baseURL baseToken targetURL targetToken force w
                  w1 snapshot body1 _ eq_refl Hd) as H2.
    assert (Hpanic : (match data with
                      | any_map m => Return (Ok m)
                      | _ => Panic (TypeAssertionError (TypeOf data) kind_map)
                      end : outcome (Result mapStringAny))
                     = Panic (TypeAssertionError (TypeOf data) kind_map)).
    { destruct data; try reflexivity. now destruct (Hdata m). }
    rewrite Hpanic in H2.
    rewrite (Migrate_diff_panics _ _ _ _ force w snapshot w1 H1 _ _ H2).
    split; [reflexivity |].
    split; simpl; rewrite <- ?app_assoc; reflexivity.
Qed.

Lemma Migrate_panics_on_non_mapping_data_witness :
  let run := Migrate (RT := Stub.runtime Stub.array_data)
               "http://base" "bt" "http://target" "tt" false Stub.empty in
  fst run = Panic (TypeAssertionError (Some kind_slice) kind_map)
  /\ Stub.urls (snd run) = ["http://base/schema/snapshot?access_token=bt"].
Proof.
  cbv zeta.
  assert (Hdata : forall m, any_slice [] <> any_map m) by discriminate.
  destruct (proj1 (Migrate_panics_on_non_mapping_data
                     (RT := Stub.runtime Stub.array_data)
                     "http://base" "bt" "http://target" "tt" false Stub.empty
                     (any_slice []) Hdata))
    as (Hpanic & Hnet & _).
  - split; [reflexivity |].
    exists {| http.StatusCode := 200;
              http.Body := {| io.content := "array-envelope";
                              io.readErr := None |} |},
           (Some {[ "data" := any_slice [] ]}).
    repeat split.
  - split; [exact Hpanic |]. unfold Stub.urls. now rewrite Hnet.
Defined.

Lemma Is_refl (err : error) : Is err err.
Proof. destruct err; now left. Qed.

Lemma Is_wrap (context : string) (inner target : error) :
  Is inner target -> Is (wrap context inner) target.
Proof. intros H. now right. Qed.

(** X13: a transport error stays matchable through Migrate.  When the
    exchange of a step fails with [err], Migrate returns an error [e]
    with [errors.Is(e, err)], two wrappers above [err]: the step's context
    line, then the operation's ["failed to execute ... request"] line,
    then the text of [err]. *)
Theorem transport_error_reaches_the_caller `{RT : Runtime}
    baseURL baseToken targetURL targetToken force w err :
  let baseClient := directusClient baseURL baseToken in
  let targetClient := directusClient targetURL targetToken in
  let run := Migrate baseURL baseToken targetURL targetToken force w in
  (url_Parse (snapshotURL baseClient) = None ->
   http.exchange http_DefaultClient (network w) (snapshotRequest baseClient)
   = Err err ->
   exists e,
     fst run = Return (Some e) /\ Is e err
     /\ Error e = "failed to get snapshot: failed to execute snapshot request: "
                  +:+ Error err)
  /\ (forall snapshot body1,
        snapshot_served http_DefaultClient (network w) baseClient
          (any_map snapshot) ->
        json_Marshal snapshot = Ok body1 ->
        url_Parse (diffURL targetClient force) = None ->
        http.exchange http_DefaultClient
          (network w ++ [snapshotRequest baseClient])%list
          (diffRequest targetClient force body1)
        = Err err ->
        exists e,
          fst run = Return (Some e) /\ Is e err
          /\ Error e = "failed to get diff: failed to execute diff request: "
                       +:+ Error err)
  /\ (forall snapshot body1 diff body2,
        snapshot_served http_DefaultClient (network w) baseClient
          (any_map snapshot) ->
        diff_served http_DefaultClient
          (network w ++ [snapshotRequest baseClient])%list
          targetClient force snapshot body1 (any_map diff) ->
        json_Marshal diff = Ok body2 ->
        url_Parse (applyURL targetClient) = None ->
        http.exchange http_DefaultClient
          (network w ++ [snapshotRequest baseClient;
                         diffRequest targetClient force body1])%list
          (applyRequest targetClient body2)
        = Err err ->
        exists e,
          fst run = Return (Some e) /\ Is e err
          /\ Error e = "failed to apply diff: failed to execute apply request: "
                       +:+ Error err).
Proof.
  cbv zeta.
  set (w0 := started w baseURL baseToken targetURL targetToken).
  set (w1 := sent w0 (snapshotRequest (directusClient baseURL baseToken))).
  split; [| split].
  - intros Hurl Hex.
    pose proof (GetSnapshot_transport _ w0 _ (started_base _ _ _ _ w)
                  http_DefaultClient eq_refl err Hurl Hex) as H1.
    rewrite (Migrate_snapshot_failed _ _ _ _ force w _ _ H1).
    eexists. split; [reflexivity |]. split; [| reflexivity].
    do 2 apply Is_wrap. apply Is_refl.
  - intros snapshot body1 Hs Hbody Hurl Hex.
    pose proof (snapshot_served_run baseURL baseToken targetURL targetToken w
                  _ Hs) as H1.
    assert (Hc : clients (diffing w1) !! S (length (clients w))
                 = Some (directusClient targetURL targetToken))
      by apply started_target.
    pose proof (GetDiff_transport _ (diffing w1) _ Hc http_DefaultClient
                  eq_refl snapshot force body1 err Hbody Hurl Hex) as H2.
    rewrite (Migrate_diff_failed _ _ _ _ force w snapshot w1 H1 _ _ H2).
    eexists. split; [reflexivity |]. split; [| reflexivity].
    do 2 apply Is_wrap. apply Is_refl.
  - intros snapshot body1 diff body2 Hs Hd Hbody Hurl Hex.
    set (w2 := sent (diffing w1)
                 (diffRequest (directusClient targetURL targetToken)
                    force body1)).
    pose proof (snapshot_served_run baseURL baseToken targetURL targetToken w
                  _ Hs) as H1.
    pose proof (diff_served_run baseURL baseToken targetURL targetToken force w
                  w1 snapshot body1 _ eq_refl Hd) as H2.
    assert (Hc : clients (applying w2) !! S (length (clients w))
                 = Some (directusClient targetURL targetToken))
      by apply started_target.
    rewrite <- log_after_two in Hex.
    pose proof (ApplyDiff_transport _ (applying w2) _ Hc http_DefaultClient
                  eq_refl diff body2 err Hbody Hurl Hex) as H3.
    rewrite (Migrate_applies _ _ _ _ force w snapshot w1 H1 diff w2 H2), H3.
    eexists. split; [reflexivity |]. split; [| reflexivity].
    do 2 apply Is_wrap. apply Is_refl.
Qed.

Lemma transport_error_reaches_the_caller_witness :
  exists e,
    fst (Migrate (RT := Stub.runtime Stub.unreachable_target)
           "http://base" "bt" "http://target" "tt" false Stub.empty)
    = Return (Some e)
    /\ Is e (errorString "dial tcp: connection refused")
    /\ Error e = "failed to get diff: failed to execute diff request: dial tcp: connection refused".
Proof.
  destruct (transport_error_reaches_the_caller
              (RT := Stub.runtime Stub.unreachable_target)
              "http://base" "bt" "http://target" "tt" false Stub.empty
              (errorString "dial tcp: connection refused"))
    as (_ & Hd & _).
  destruct (Hd (Some {[ "fields" := any_slice [] ]}) "{fields}")
    as (e & Hrun & His & Htext).
  - split; [reflexivity |].
    exists {| http.StatusCode := 200;
              http.Body := {| io.content := "snapshot-envelope";
                              io.readErr := None |} |},
           (Some {[ "data" := Stub.document "fields" ]}).
    repeat split.
  - reflexivity.
  - reflexivity.
  - reflexivity.
  - exists e. split; [exact Hrun |]. split; [exact His | exact Htext].
Defined.

(** ** The command *)

Section CommandFacts.

Context {RT : Runtime} {HOST : Host}.

Lemma Getenv_unset (env : gmap string string) (key : string) :
  env !! key = None -> os.Getenv env key = "".
Proof. intros H. unfold os.Getenv. now rewrite H. Qed.

Lemma main_migrates env env' force w :
  godotenv_Load env = Ok env' ->
  strconv.ParseBool (os.Getenv env' "FORCE") = Some force ->
  main env w
  = match Migrate (os.Getenv env' "BASE_URL") (os.Getenv env' "BASE_TOKEN")
            (os.Getenv env' "TARGET_URL") (os.Getenv env' "TARGET_TOKEN")
            force w with
    | (Return (Some err), w') =>
        (Exit 1, [Written ("Migration failed: " +:+ Error err +:+ LF)], w')
    | (Return None, w') => (Exit 0, [], w')
    | (Panic p, w') => (Crash p, [], w')
    end.
Proof.
  intros Hload Hforce. unfold main. rewrite Hload. cbv zeta. rewrite Hforce.
  reflexivity.
Qed.

End CommandFacts.

(** X14: the command aborts before the core when its configuration is
    unusable.  If [godotenv.Load] fails, or if FORCE is not set or is not
    one of the spellings [strconv.ParseBool] accepts, main logs the fatal
    message and exits with status 1 without allocating a client, sending
    a request or printing a progress line. *)
Theorem main_aborts_before_the_core `{RT : Runtime} `{HOST : Host} env w :
  (forall err,
      godotenv_Load env = Err err ->
      main env w = (Exit 1, [Logged "Error loading .env file"], w))
  /\ (forall env',
        godotenv_Load env = Ok env' ->
        env' !! "FORCE" = None
        \/ strconv.ParseBool (os.Getenv env' "FORCE") = None ->
        main env w
        = (Exit 1, [Logged "Error parsing FORCE from .env file"], w)).
Proof.
  split.
  - intros err Hload. unfold main. now rewrite Hload.
  - intros env' Hload Hforce.
    assert (Hparse : strconv.ParseBool (os.Getenv env' "FORCE") = None).
    { destruct Hforce as [Hunset | Hbad]; [| exact Hbad].
      now rewrite (Getenv_unset env' "FORCE" Hunset). }
    unfold main. rewrite Hload. cbv zeta. now rewrite Hparse.
Qed.

Lemma main_aborts_before_the_core_witness :
  let RT := Stub.runtime Stub.healthy in
  main (HOST := Fixture.no_dotenv) ∅ Stub.empty
  = (Exit 1, [Logged "Error loading .env file"], Stub.empty)
  /\ main (HOST := Fixture.dotenv [("BASE_URL", "http://base")]) ∅ Stub.empty
     = (Exit 1, [Logged "Error parsing FORCE from .env file"], Stub.empty)
  /\ main (HOST := Fixture.dotenv (Fixture.complete "yes")) ∅ Stub.empty
     = (Exit 1, [Logged "Error parsing FORCE from .env file"], Stub.empty).
Proof.
  cbv zeta. split; [| split].
  - exact (proj1 (main_aborts_before_the_core
                    (RT := Stub.runtime Stub.healthy)
                    (HOST := Fixture.no_dotenv) ∅ Stub.empty)
             _ eq_refl).
  - exact (proj2 (main_aborts_before_the_core
                    (RT := Stub.runtime Stub.healthy)
                    (HOST := Fixture.dotenv [("BASE_URL", "http://base")])
                    ∅ Stub.empty)
             _ eq_refl (or_introl eq_refl)).
  - exact (proj2 (main_aborts_before_the_core
                    (RT := Stub.runtime Stub.healthy)
                    (HOST := Fixture.dotenv (Fixture.complete "yes"))
                    ∅ Stub.empty)
             _ eq_refl (or_intror eq_refl)).
Defined.

(** X15: the exit status of the command tells how Migrate ended.  main
    exits with status 0 exactly when the configuration loaded, FORCE
    parsed and Migrate, called with the four variables as they are,
    returned nil; it then wrote nothing to standard error.  When Migrate
    returns an error, main writes ["Migration failed: "], the error's text
    and a line feed to standard error and exits with status 1. *)
Theorem main_exit_status `{RT : Runtime} `{HOST : Host} env w :
  (forall out w',
      main env w = (Exit 0, out, w')
      <-> out = []
          /\ exists env' force,
               godotenv_Load env = Ok env'
               /\ strconv.ParseBool (os.Getenv env' "FORCE") = Some force
               /\ Migrate (os.Getenv env' "BASE_URL")
                    (os.Getenv env' "BASE_TOKEN")
                    (os.Getenv env' "TARGET_URL")
                    (os.Getenv env' "TARGET_TOKEN") force w
                  = (Return None, w'))
  /\ (forall env' force err w',
        godotenv_Load env = Ok env' ->
        strconv.ParseBool (os.Getenv env' "FORCE") = Some force ->
        Migrate (os.Getenv env' "BASE_URL") (os.Getenv env' "BASE_TOKEN")
          (os.Getenv env' "TARGET_URL") (os.Getenv env' "TARGET_TOKEN")
          force w
        = (Return (Some err), w') ->
        main env w
        = (Exit 1, [Written ("Migration failed: " +:+ Error err +:+ LF)], w')).
Proof.
  split.
  - intros out w'. split.
    + intros H. unfold main in H.
      destruct (godotenv_Load env) as [env'|err] eqn:Hload; [| discriminate H].
      cbv zeta in H.
      destruct (strconv.ParseBool (os.Getenv env' "FORCE")) as [force|]
        eqn:Hforce; [| discriminate H].
      destruct (Migrate (os.Getenv env' "BASE_URL")
                  (os.Getenv env' "BASE_TOKEN") (os.Getenv env' "TARGET_URL")
                  (os.Getenv env' "TARGET_TOKEN") force w)
        as [[[err|]|p] w''] eqn:Hrun; try discriminate H.
      injection H as <- <-. split; [reflexivity |]. now exists env', force.
    + intros (-> & env' & force & Hload & Hforce & Hrun).
      now rewrite (main_migrates env env' force w Hload Hforce), Hrun.
  - intros env' force err w' Hload Hforce Hrun.
    now rewrite (main_migrates env env' force w Hload Hforce), Hrun.
Qed.

Lemma main_exit_status_witness :
  main (RT := Stub.runtime Stub.healthy)
    (HOST := Fixture.dotenv (Fixture.complete "true")) ∅ Stub.empty
  = (Exit 0, [],
     snd (Migrate (RT := Stub.runtime Stub.healthy)
            "http://base" "bt" "http://target" "tt" true Stub.empty))
  /\ fst (main (RT := Stub.runtime Stub.failing)
            (HOST := Fixture.dotenv (Fixture.complete "0")) ∅ Stub.empty)
     = (Exit 1,
        [Written ("Migration failed: failed to get snapshot: snapshot request failed with status 500: internal error" +:+ LF)]).
Proof.
  split.
  - apply (proj1 (main_exit_status (RT := Stub.runtime Stub.healthy)
                    (HOST := Fixture.dotenv (Fixture.complete "true"))
                    ∅ Stub.empty)).
    split; [reflexivity |].
    exists (∅ ∪ list_to_map (Fixture.complete "true")), true.
    split; [reflexivity |]. split; [reflexivity |]. reflexivity.
  - pose (RT := Stub.runtime Stub.failing).
    rewrite (proj2 (main_exit_status (RT := Stub.runtime Stub.failing)
                      (HOST := Fixture.dotenv (Fixture.complete "0"))
                      ∅ Stub.empty)
               (∅ ∪ list_to_map (Fixture.complete "0")) false
               (wrap "failed to get snapshot: "
                  (errorString
                     "snapshot request failed with status 500: internal error"))
               (sent (started Stub.empty "http://base" "bt"
                        "http://target" "tt")
                     (snapshotRequest (directusClient "http://base" "bt")))
               ltac:(reflexivity) ltac:(reflexivity) ltac:(reflexivity)).
    reflexivity.
Defined.

(** X16: the command sends nothing but the requests of one migration
    between the instances its environment names.  Whatever the outcome,
    the requests main adds to the log are a prefix of: snapshot, diff and
    apply built from BASE_URL, BASE_TOKEN, TARGET_URL, TARGET_TOKEN as
    they are (an unset variable being the empty string) and from the
    parsed FORCE; when main aborts before the core it adds none. *)
Theorem main_sends_one_migration `{RT : Runtime} `{HOST : Host} env w :
  snd (main env w) = w
  \/ exists env' force reqs body1 body2,
       godotenv_Load env = Ok env'
       /\ strconv.ParseBool (os.Getenv env' "FORCE") = Some force
       /\ network (snd (main env w)) = (network w ++ reqs)%list
       /\ reqs `prefix_of`
            [ snapshotRequest
                (directusClient (os.Getenv env' "BASE_URL")
                   (os.Getenv env' "BASE_TOKEN"));
              diffRequest
                (directusClient (os.Getenv env' "TARGET_URL")
                   (os.Getenv env' "TARGET_TOKEN")) force body1;
              applyRequest
                (directusClient (os.Getenv env' "TARGET_URL")
                   (os.Getenv env' "TARGET_TOKEN")) body2 ].
Proof.
  destruct (godotenv_Load env) as [env'|err] eqn:Hload;
    [| left; unfold main; now rewrite Hload].
  destruct (strconv.ParseBool (os.Getenv env' "FORCE")) as [force|] eqn:Hforce;
    [| left; unfold main; rewrite Hload; cbv zeta; now rewrite Hforce].
  right.
  destruct (Migrate_requests (os.Getenv env' "BASE_URL")
              (os.Getenv env' "BASE_TOKEN") (os.Getenv env' "TARGET_URL")
              (os.Getenv env' "TARGET_TOKEN") force w)
    as (reqs & lines & body1 & body2 & _ & Hnet & Hreqs & _).
  exists env', force, reqs, body1, body2.
  split; [reflexivity |]. split; [exact Hforce |]. split; [| exact Hreqs].
  rewrite (main_migrates env env' force w Hload Hforce).
  destruct (Migrate (os.Getenv env' "BASE_URL") (os.Getenv env' "BASE_TOKEN")
              (os.Getenv env' "TARGET_URL") (os.Getenv env' "TARGET_TOKEN")
              force w) as [[[err|]|p] w']; exact Hnet.
Qed.
